(** * taskflow/retry.py: retry controllers of a subflow

    A shallow embedding of [src/taskflow/retry.py] and the properties of
    its retry strategies.

    The module is Python: its methods receive object references, build and
    mutate list objects, raise and catch exceptions, and are entered
    through Python's argument binding.  The embedding keeps all four:

    - an object store ([store]) holding list objects and controller
      instances, so that [list(values)] allocates a new object and
      [values.remove(item)] writes the store;
    - a state-and-exception monad ([M]) over that store;
    - the calling convention: a call carries positional and keyword
      arguments, and every method binds them as its [def] line says;
    - the retry actions as the string constants the module defines. *)

From stdpp Require Import base gmap strings list fin_maps.
From Stdlib Require Import ZArith.

Local Open Scope Z_scope.
Set Warnings "-register-all".

(** ** Python values *)

(** Immutable data: what a controller produces, what a candidate is, and
    the failure map of an attempt record.  A failure map sends a task name
    to an opaque failure descriptor; equality on [gmap] is extensional, as
    [==] on dicts is.  The lists the module handles (a collection, a
    history, the working copy) are not data but objects of the store, see
    [object] below. *)
Inductive pyval : Type :=
| PNone
| PInt (n : Z)
| PStr (s : string)
| PTuple (xs : list pyval)
| PDict (d : gmap string string).

(** Python's [==] on this data. *)
Fixpoint py_eq (x y : pyval) : bool :=
  match x, y with
  | PNone, PNone => true
  | PInt a, PInt b => bool_decide (a = b)
  | PStr a, PStr b => bool_decide (a = b)
  | PTuple xs, PTuple ys =>
      (fix go (xs ys : list pyval) : bool :=
         match xs, ys with
         | [], [] => true
         | x :: xs', y :: ys' => py_eq x y && go xs' ys'
         | _, _ => false
         end) xs ys
  | PDict a, PDict b => bool_decide (a = b)
  | _, _ => false
  end.

(** Object references.  An argument is either immutable data or a
    reference to an object of the store. *)
Abbreviation loc := positive.

Inductive pyobj : Type :=
| OData (v : pyval)
| ORef (l : loc).

(** ** Retry actions (retry.py, lines 30-33) *)

Definition REVERT : pyval := PStr "REVERT".
Definition REVERT_ALL : pyval := PStr "REVERT_ALL".
Definition RETRY : pyval := PStr "RETRY".

(** The closed set of actions [on_failure] is documented to return. *)
Definition is_action (v : pyval) : Prop :=
  v = RETRY ∨ v = REVERT ∨ v = REVERT_ALL.

(** ** Controller instances and the object store *)

(** An instance of one of the five concrete classes with its attributes:
    [_name] (set by the atom base class), [_attempts] (Times.__init__,
    line 122), [_values] (ForEach.__init__, line 167: the reference it is
    given, not a copy). *)
Inductive instance : Type :=
| AlwaysRevertI (_name : string)
| AlwaysRevertAllI (_name : string)
| TimesI (_name : string) (_attempts : Z)
| ForEachI (_name : string) (_values : pyobj)
| ParameterizedForEachI (_name : string).

Inductive object : Type :=
| ListObj (xs : list pyval)
| RetryObj (c : instance).

Abbreviation store := (gmap loc object).

(** ** Exceptions and the monad of methods *)

(** The exceptions the module can meet.  [NotFound] is
    [taskflow.exceptions.NotFound] with its message; the others are
    Python's built-in ones. *)
Inductive exn : Type :=
| TypeError
| ValueError
| AttributeError
| IndexError
| NotFound (msg : string).

Inductive outcome (A : Type) : Type :=
| Ret (a : A)
| Raise (e : exn).
Arguments Ret {A} a.
Arguments Raise {A} e.

(** A computation runs in a store, ends normally or with an exception,
    and leaves a store: what it wrote before raising stays written. *)
Definition M (A : Type) : Type := store → outcome A * store.

Definition ret {A} (a : A) : M A := λ σ, (Ret a, σ).
Definition raise {A} (e : exn) : M A := λ σ, (Raise e, σ).
Definition bind {A B} (m : M A) (k : A → M B) : M B :=
  λ σ, match m σ with
       | (Ret a, σ') => k a σ'
       | (Raise e, σ') => (Raise e, σ')
       end.

Notation "x <- m ;; k" := (bind m (λ x, k))
  (at level 100, m at next level, right associativity).

(** [try: m  except E: handler  else: els], where [handles] tells the
    exceptions of class [E]. *)
Definition try_except_else {A B} (m : M A) (handles : exn → bool)
    (handler : M B) (els : A → M B) : M B :=
  λ σ, match m σ with
       | (Ret a, σ') => els a σ'
       | (Raise e, σ') => if handles e then handler σ' else (Raise e, σ')
       end.

Definition try_except {A} (m : M A) (handles : exn → bool) (handler : M A) : M A :=
  try_except_else m handles handler ret.

Definition is_ValueError (e : exn) : bool :=
  match e with ValueError => true | _ => false end.
Definition is_NotFound (e : exn) : bool :=
  match e with NotFound _ => true | _ => false end.

(** [for x in xs: body]. *)
Fixpoint for_each {A} (xs : list A) (body : A → M unit) : M unit :=
  match xs with
  | [] => ret tt
  | x :: xs' => _ <- body x ;; for_each xs' body
  end.

(** ** Built-in operations *)

Fixpoint chars (s : string) : list pyval :=
  match s with
  | EmptyString => []
  | String c s' => PStr (String c EmptyString) :: chars s'
  end.

(** What iterating over immutable data yields: the members of a tuple,
    the characters of a string, the keys of a dict (in the order of
    [map_to_list]; no property below depends on it); [None] and integers
    are not iterable. *)
Definition iter_data (v : pyval) : option (list pyval) :=
  match v with
  | PTuple xs => Some xs
  | PStr s => Some (chars s)
  | PDict d => Some (PStr <$> (map_to_list d).*1)
  | PNone | PInt _ => None
  end.

(** The elements an object yields on iteration, in the current store. *)
Definition iter_elems (σ : store) (x : pyobj) : option (list pyval) :=
  match x with
  | OData v => iter_data v
  | ORef l => match σ !! l with
              | Some (ListObj xs) => Some xs
              | _ => None
              end
  end.

Definition elements (x : pyobj) : M (list pyval) :=
  λ σ, match iter_elems σ x with
       | Some xs => (Ret xs, σ)
       | None => (Raise TypeError, σ)
       end.

Definition alloc (o : object) : M loc :=
  λ σ, let l := fresh (dom σ) in (Ret l, <[l := o]> σ).

(** [list(x)]: a new list object with the elements of [x]. *)
Definition py_list (x : pyobj) : M loc :=
  xs <- elements x ;; alloc (ListObj xs).

(** [len(x)]. *)
Definition py_len (x : pyobj) : M Z :=
  xs <- elements x ;; ret (Z.of_nat (length xs)).

(** [(a, b) = e]: unpacking into two targets. *)
Definition unpack2 (e : pyval) : M (pyval * pyval) :=
  match iter_data e with
  | Some [a; b] => ret (a, b)
  | Some _ => raise ValueError
  | None => raise TypeError
  end.

(** The list without its first element equal to [item]; [None] when no
    element is. *)
Fixpoint remove_first (item : pyval) (xs : list pyval) : option (list pyval) :=
  match xs with
  | [] => None
  | x :: xs' =>
      if py_eq x item then Some xs'
      else (x ::.) <$> remove_first item xs'
  end.

(** [w.remove(item)] on a list object: removes the first equal element in
    place, raises [ValueError] when there is none. *)
Definition list_remove (w : loc) (item : pyval) : M unit :=
  λ σ, match σ !! w with
       | Some (ListObj xs) =>
           match remove_first item xs with
           | Some xs' => (Ret tt, <[w := ListObj xs']> σ)
           | None => (Raise ValueError, σ)
           end
       | _ => (Raise AttributeError, σ)
       end.

(** [not w] on a list object: true when it is empty. *)
Definition list_not (w : loc) : M bool :=
  λ σ, match σ !! w with
       | Some (ListObj []) => (Ret true, σ)
       | _ => (Ret false, σ)
       end.

(** [w[i]] on a list object. *)
Definition list_getitem (w : loc) (i : nat) : M pyval :=
  λ σ, match σ !! w with
       | Some (ListObj xs) =>
           match xs !! i with
           | Some x => (Ret x, σ)
           | None => (Raise IndexError, σ)
           end
       | _ => (Raise TypeError, σ)
       end.

(** ** Calls and argument binding *)

(** The arguments of a call besides [self]: the positional ones in order
    and the keyword ones by name. *)
Record call : Type := Call { pos : list pyobj; kw : gmap string pyobj }.

(** Binding of the named parameters of [def f(self, p1, ..., pn, ...)]:
    positional arguments fill them from the left, the rest are looked up
    by name; a parameter given twice or not at all is a [TypeError]
    ([None] here).  Returns the bound values and the positional arguments
    left over. *)
Fixpoint bind_params (names : list string) (ps : list pyobj)
    (kws : gmap string pyobj) : option (list pyobj * list pyobj) :=
  match names with
  | [] => Some ([], ps)
  | x :: names' =>
      match ps with
      | p :: ps' =>
          match kws !! x with
          | Some _ => None
          | None =>
              '(vs, rest) ← bind_params names' ps' kws; Some (p :: vs, rest)
          end
      | [] =>
          v ← kws !! x;
          '(vs, rest) ← bind_params names' [] kws; Some (v :: vs, rest)
      end
  end.

(** Entering a method whose signature has the named parameters [names],
    a [*args] parameter when [varargs] holds, and [**kwargs] (every method
    of the module has it): without [*args], positional arguments left over
    are a [TypeError]. *)
Definition enter (names : list string) (varargs : bool) (c : call)
    : M (list pyobj) :=
  match bind_params names (pos c) (kw c) with
  | Some (vs, rest) =>
      match rest with
      | [] => ret vs
      | _ :: _ => if varargs then ret vs else raise TypeError
      end
  | None => raise TypeError
  end.

(** [def f(self, *args, **kwargs)] *)
Definition enter_args_kwargs (c : call) : M unit :=
  _ <- enter [] true c ;; ret tt.

(** [def f(self, **kwargs)] *)
Definition enter_kwargs (c : call) : M unit :=
  _ <- enter [] false c ;; ret tt.

(** [def f(self, history, *args, **kwargs)] *)
Definition enter_history (c : call) : M pyobj :=
  vs <- enter ["history"%string] true c ;;
  match vs with
  | [history] => ret history
  | _ => raise TypeError
  end.

(** [def f(self, values, history, *args, **kwargs)] *)
Definition enter_values_history (c : call) : M (pyobj * pyobj) :=
  vs <- enter ["values"%string; "history"%string] true c ;;
  match vs with
  | [values; history] => ret (values, history)
  | _ => raise TypeError
  end.

(** ** The classes of retry.py *)

Definition instance_name (c : instance) : string :=
  match c with
  | AlwaysRevertI n | AlwaysRevertAllI n | TimesI n _
  | ForEachI n _ | ParameterizedForEachI n => n
  end.

Definition instance_set_name (n : string) (c : instance) : instance :=
  match c with
  | AlwaysRevertI _ => AlwaysRevertI n
  | AlwaysRevertAllI _ => AlwaysRevertAllI n
  | TimesI _ a => TimesI n a
  | ForEachI _ vs => ForEachI n vs
  | ParameterizedForEachI _ => ParameterizedForEachI n
  end.

(** class Retry (lines 36-92) *)
Module Retry.

(** The [name] property (lines 54-56): [self._name]. *)
Definition name (self : loc) : M string :=
  λ σ, match σ !! self with
       | Some (RetryObj c) => (Ret (instance_name c), σ)
       | _ => (Raise AttributeError, σ)
       end.

(** [set_name] (lines 58-59): the one method that writes the
    instance. *)
Definition set_name (self : loc) (n : string) : M unit :=
  λ σ, match σ !! self with
       | Some (RetryObj c) =>
           (Ret tt, <[self := RetryObj (instance_set_name n c)]> σ)
       | _ => (Raise AttributeError, σ)
       end.

(** [revert] (lines 73-79): a docstring only. *)
Definition revert (self : loc) (c : call) : M pyval :=
  _ <- enter_history c ;; ret PNone.

End Retry.

(** class AlwaysRevert (lines 95-102) *)
Module AlwaysRevert.

Definition on_failure (self : loc) (c : call) : M pyval :=
  _ <- enter_args_kwargs c ;; ret REVERT.

Definition execute (self : loc) (c : call) : M pyval :=
  _ <- enter_args_kwargs c ;; ret PNone.

End AlwaysRevert.

(** class AlwaysRevertAll (lines 105-112) *)
Module AlwaysRevertAll.

Definition on_failure (self : loc) (c : call) : M pyval :=
  _ <- enter_kwargs c ;; ret REVERT_ALL.

Definition execute (self : loc) (c : call) : M pyval :=
  _ <- enter_kwargs c ;; ret PNone.

End AlwaysRevertAll.

(** class Times (lines 115-130) *)
Module Times.

(** [self._attempts] *)
Definition _attempts (self : loc) : M Z :=
  λ σ, match σ !! self with
       | Some (RetryObj (TimesI _ a)) => (Ret a, σ)
       | _ => (Raise AttributeError, σ)
       end.

Definition on_failure (self : loc) (c : call) : M pyval :=
  history <- enter_history c ;;
  n <- py_len history ;;
  attempts <- _attempts self ;;
  if bool_decide (n < attempts) then ret RETRY else ret REVERT.

Definition execute (self : loc) (c : call) : M pyval :=
  history <- enter_history c ;;
  n <- py_len history ;;
  ret (PInt (n + 1)).

End Times.

(** class ForEachBase (lines 133-155) *)
Module ForEachBase.

Definition not_found_msg (name : string) : string :=
  "No elements left in collection of iterable retry controller " +:+ name.

(** [_get_next_value] (lines 136-147).  [values'] is the local [values]
    after its rebinding to the copy.  The loop runs over the elements the
    history yields when the loop starts: its body writes the copy only,
    which is a new object (see [for_each_consume] and
    [get_next_value_store]), so the history yields the same elements
    throughout.  An entry is unpacked by the [for] statement, outside the
    [try]. *)
Definition _get_next_value (self : loc) (values history : pyobj) : M pyval :=
  values' <- py_list values ;;
  entries <- elements history ;;
  _ <- for_each entries (λ entry,
         p <- unpack2 entry ;;
         let item := p.1 in
         try_except (list_remove values' item) is_ValueError (ret tt)) ;;
  empty <- list_not values' ;;
  if (empty : bool) then
    name <- Retry.name self ;;
    raise (NotFound (not_found_msg name))
  else list_getitem values' 0.

(** [_on_failure] (lines 149-155). *)
Definition _on_failure (self : loc) (values history : pyobj) : M pyval :=
  try_except_else (_get_next_value self values history) is_NotFound
    (ret REVERT)
    (λ _, ret RETRY).

End ForEachBase.

(** class ForEach (lines 158-173) *)
Module ForEach.

(** [self._values] *)
Definition _values (self : loc) : M pyobj :=
  λ σ, match σ !! self with
       | Some (RetryObj (ForEachI _ vs)) => (Ret vs, σ)
       | _ => (Raise AttributeError, σ)
       end.

Definition on_failure (self : loc) (c : call) : M pyval :=
  history <- enter_history c ;;
  values <- _values self ;;
  ForEachBase._on_failure self values history.

Definition execute (self : loc) (c : call) : M pyval :=
  history <- enter_history c ;;
  values <- _values self ;;
  ForEachBase._get_next_value self values history.

End ForEach.

(** class ParameterizedForEach (lines 176-185) *)
Module ParameterizedForEach.

Definition on_failure (self : loc) (c : call) : M pyval :=
  vh <- enter_values_history c ;;
  ForEachBase._on_failure self vh.1 vh.2.

Definition execute (self : loc) (c : call) : M pyval :=
  vh <- enter_values_history c ;;
  ForEachBase._get_next_value self vh.1 vh.2.

End ParameterizedForEach.

(** ** Method calls on a controller *)

(** [self.on_failure(...)] and [self.execute(...)]: the method of the
    class of the object [self] refers to. *)
Definition call_on_failure (self : loc) (c : call) : M pyval :=
  λ σ, match σ !! self with
       | Some (RetryObj (AlwaysRevertI _)) => AlwaysRevert.on_failure self c σ
       | Some (RetryObj (AlwaysRevertAllI _)) => AlwaysRevertAll.on_failure self c σ
       | Some (RetryObj (TimesI _ _)) => Times.on_failure self c σ
       | Some (RetryObj (ForEachI _ _)) => ForEach.on_failure self c σ
       | Some (RetryObj (ParameterizedForEachI _)) =>
           ParameterizedForEach.on_failure self c σ
       | _ => (Raise AttributeError, σ)
       end.

Definition call_execute (self : loc) (c : call) : M pyval :=
  λ σ, match σ !! self with
       | Some (RetryObj (AlwaysRevertI _)) => AlwaysRevert.execute self c σ
       | Some (RetryObj (AlwaysRevertAllI _)) => AlwaysRevertAll.execute self c σ
       | Some (RetryObj (TimesI _ _)) => Times.execute self c σ
       | Some (RetryObj (ForEachI _ _)) => ForEach.execute self c σ
       | Some (RetryObj (ParameterizedForEachI _)) =>
           ParameterizedForEach.execute self c σ
       | _ => (Raise AttributeError, σ)
       end.

(** ** Histories and candidate collections *)

(** An attempt record pairs the value the controller produced with the
    failures of that attempt; a history is the list of them, oldest
    first.  In the store a record is the tuple [(value, failures)]. *)
Definition attempt : Type := pyval * gmap string string.
Definition History : Type := list attempt.

Definition record (a : attempt) : pyval := PTuple [a.1; PDict a.2].
Definition records (h : History) : list pyval := record <$> h.

(** The recorded values of a history, in order. *)
Definition tried (h : History) : list pyval := h.*1.

(** An argument refers to an object of the store (or is plain data). *)
Definition closed (σ : store) (x : pyobj) : Prop :=
  match x with
  | OData _ => True
  | ORef l => is_Some (σ !! l)
  end.

Definition call_closed (σ : store) (c : call) : Prop :=
  Forall (closed σ) (pos c) ∧ map_Forall (λ _ x, closed σ x) (kw c).

Definition instance_closed (σ : store) (i : instance) : Prop :=
  match i with
  | ForEachI _ vs => closed σ vs
  | _ => True
  end.

(** How a call hands [history] to [def f(self, history, *args, **kwargs)]:
    as the first positional argument or by keyword. *)
Definition bound_history (c : call) : option pyobj :=
  match pos c with
  | p :: _ => match kw c !! "history"%string with
              | Some _ => None
              | None => Some p
              end
  | [] => kw c !! "history"%string
  end.

(** How a call hands [values] and [history] to
    [def f(self, values, history, *args, **kwargs)]. *)
Definition bound_values_history (c : call) : option (pyobj * pyobj) :=
  match pos c with
  | v :: h :: _ =>
      match kw c !! "values"%string, kw c !! "history"%string with
      | None, None => Some (v, h)
      | _, _ => None
      end
  | [v] =>
      match kw c !! "values"%string, kw c !! "history"%string with
      | None, Some h => Some (v, h)
      | _, _ => None
      end
  | [] =>
      match kw c !! "values"%string, kw c !! "history"%string with
      | Some v, Some h => Some (v, h)
      | _, _ => None
      end
  end.

(** A call by keyword only. *)
Definition by_keyword (kws : gmap string pyobj) : call := Call [] kws.

(** A call by position only. *)
Definition by_position (ps : list pyobj) : call := Call ps ∅.

(** ** A sample store

    One instance of each class, a collection [[a; a; b]] with a duplicate,
    a history of one failed attempt with [a], an empty collection and a
    [ForEach] over it. *)
Module Sample.

Definition a : pyval := PStr "a".
Definition b : pyval := PStr "b".

Definition always_revert : loc := 1%positive.
Definition always_revert_all : loc := 2%positive.
Definition times : loc := 3%positive.
Definition for_each : loc := 4%positive.
Definition parameterized : loc := 5%positive.
Definition candidates : loc := 6%positive.
Definition past : loc := 7%positive.
Definition nothing : loc := 8%positive.
Definition for_each_nothing : loc := 9%positive.
Definition numbers : loc := 10%positive.

Definition past_again : loc := 11%positive.

Definition one_failure : History := [(a, {["task" := "boom"]})].
Definition other_failure : History := [(a, {["other" := "bang"]})].

Definition σ : store :=
  list_to_map
    [ (always_revert, RetryObj (AlwaysRevertI "ar"));
      (always_revert_all, RetryObj (AlwaysRevertAllI "ara"));
      (times, RetryObj (TimesI "times" 2));
      (for_each, RetryObj (ForEachI "fe" (ORef candidates)));
      (parameterized, RetryObj (ParameterizedForEachI "pfe"));
      (candidates, ListObj [a; a; b]);
      (past, ListObj (records one_failure));
      (nothing, ListObj []);
      (for_each_nothing, RetryObj (ForEachI "none" (ORef nothing)));
      (numbers, ListObj [PInt 1; PInt 2]);
      (past_again, ListObj (records other_failure)) ].

(** [on_failure(history=past)] and
    [on_failure(values=candidates, history=past)]. *)
Definition kw_history : call :=
  by_keyword {[ "history"%string := ORef past ]}.
Definition kw_values_history : call :=
  by_keyword (<[ "values"%string := ORef candidates ]>
               {[ "history"%string := ORef past ]}).

End Sample.

(** ** The iteration helper as section 4.3 words it *)

Module Reference.

(** Remove exactly one occurrence of [v], if present. *)
Fixpoint remove_one (v : pyval) (ws : list pyval) : list pyval :=
  match ws with
  | [] => []
  | w :: ws' => if py_eq w v then ws' else w :: remove_one v ws'
  end.

(** The working copy after the recorded values were removed, in
    order, from a copy of the collection. *)
Definition remaining (vs recorded : list pyval) : list pyval :=
  fold_left (λ ws v, remove_one v ws) recorded vs.

(** A message that carries the controller's name. *)
Definition carries (msg name : string) : Prop :=
  ∃ before after, msg = before +:+ name +:+ after.

(** The result of the next-value computation: a not-found failure
    naming the controller when nothing remains, the first remaining
    candidate otherwise. *)
Definition is_next_value (name : string) (vs recorded : list pyval)
    (r : outcome pyval) : Prop :=
  match remaining vs recorded with
  | [] => ∃ msg, r = Raise (NotFound msg) ∧ carries msg name
  | v :: _ => r = Ret v
  end.

(** The decision built on it. *)
Definition decision (vs recorded : list pyval) : pyval :=
  match remaining vs recorded with
  | [] => REVERT
  | _ :: _ => RETRY
  end.

End Reference.

(** ** What the loop of [_get_next_value] computes on list contents *)

(** The working copy [ws] after the loop over [entries], and how the
    loop ended: an entry that does not unpack into two ends it with the
    exception of the unpacking. *)
Fixpoint consume (entries ws : list pyval) : outcome unit * list pyval :=
  match entries with
  | [] => (Ret tt, ws)
  | e :: es =>
      match iter_data e with
      | Some [item; _] => consume es (default ws (remove_first item ws))
      | Some _ => (Raise ValueError, ws)
      | None => (Raise TypeError, ws)
      end
  end.

(** The outcome of [_get_next_value] from what it reads: the object at
    [self], the elements of [values] and of [history].  The second
    component is the content of the working copy when it was made. *)
Definition next_value_of (self_obj : option object)
    (vs es : option (list pyval)) : outcome pyval * option (list pyval) :=
  match vs with
  | None => (Raise TypeError, None)
  | Some vs =>
      match es with
      | None => (Raise TypeError, Some vs)
      | Some es =>
          match consume es vs with
          | (Raise e, ws) => (Raise e, Some ws)
          | (Ret _, []) =>
              match self_obj with
              | Some (RetryObj c) =>
                  (Raise (NotFound (ForEachBase.not_found_msg (instance_name c))),
                   Some [])
              | _ => (Raise AttributeError, Some [])
              end
          | (Ret _, v :: ws) => (Ret v, Some (v :: ws))
          end
      end
  end.

(** The store a working copy leaves behind. *)
Definition with_copy (σ : store) (ws : option (list pyval)) : store :=
  match ws with
  | Some ws => <[fresh (dom σ) := ListObj ws]> σ
  | None => σ
  end.

(** The decision [_on_failure] takes on an outcome of [_get_next_value]. *)
Definition decide_on (r : outcome pyval) : outcome pyval :=
  match r with
  | Ret _ => Ret RETRY
  | Raise (NotFound _) => Ret REVERT
  | Raise e => Raise e
  end.

(** ** Calls a method takes *)

(** A call hands [history] to [on_failure] of an instance the way the
    signature of its method binds it, and the collection the instance
    iterates can be iterated: any call for [AlwaysRevert] (it binds
    nothing), keywords only for [AlwaysRevertAll], [history] first or by
    keyword for [Times] and [ForEach], [values] then [history] or both by
    keyword for [ParameterizedForEach]. *)
Definition takes (σ : store) (i : instance) (c : call) (history : pyobj) : Prop :=
  match i with
  | AlwaysRevertI _ => True
  | AlwaysRevertAllI _ => pos c = []
  | TimesI _ _ => bound_history c = Some history
  | ForEachI _ values =>
      bound_history c = Some history ∧ is_Some (iter_elems σ values)
  | ParameterizedForEachI _ =>
      ∃ values, bound_values_history c = Some (values, history) ∧
                is_Some (iter_elems σ values)
  end.

(** An outcome with the exhaustion message naming another controller. *)
Definition renamed (name : string) (r : outcome pyval) : outcome pyval :=
  match r with
  | Raise (NotFound _) => Raise (NotFound (ForEachBase.not_found_msg name))
  | _ => r
  end.

(** ** Counting candidates *)

(** How often a value occurs in a list, by [==]. *)
Fixpoint occurrences (v : pyval) (l : list pyval) : nat :=
  match l with
  | [] => 0%nat
  | x :: l' => ((if py_eq x v then 1 else 0) + occurrences v l')%nat
  end.

(** ** More sample objects

    The sample store with two histories that record [a] and [b] in
    either order, a history that records every candidate and a longer
    one, a history with an entry that is no attempt record, and a
    [ForEach] built on [None]. *)
Module Sample2.

Definition a_then_b : loc := 20%positive.
Definition b_then_a : loc := 21%positive.
Definition all_tried : loc := 22%positive.
Definition broken : loc := 23%positive.
Definition for_each_none : loc := 24%positive.
Definition longer : loc := 25%positive.

Definition ab : History := [(Sample.a, ∅); (Sample.b, ∅)].
Definition ba : History := [(Sample.b, ∅); (Sample.a, ∅)].
Definition aab : History := [(Sample.a, ∅); (Sample.a, ∅); (Sample.b, ∅)].

Definition σ : store :=
  <[a_then_b := ListObj (records ab)]>
  (<[b_then_a := ListObj (records ba)]>
  (<[all_tried := ListObj (records aab)]>
  (<[broken := ListObj (records Sample.one_failure ++ [PInt 7; record (Sample.b, ∅)])]>
  (<[for_each_none := RetryObj (ForEachI "bad" (OData PNone))]>
  (<[longer := ListObj (records (aab ++ Sample.one_failure))]> Sample.σ))))).

End Sample2.

(** * Properties *)

(** ** Equality of values *)

Lemma pyval_nested_ind (P : pyval → Prop) :
  P PNone →
  (∀ n, P (PInt n)) →
  (∀ s, P (PStr s)) →
  (∀ xs, Forall P xs → P (PTuple xs)) →
  (∀ d, P (PDict d)) →
  ∀ v, P v.
Proof.
  intros HN HI HS HT HD. fix IH 1.
  intros [|n|s|xs|d]; [exact HN | apply HI | apply HS | | apply HD].
  apply HT. induction xs as [|x xs IHxs]; constructor; [apply IH | apply IHxs].
Qed.

(** [py_eq] decides equality of the modelled data. *)
Lemma py_eq_true (x y : pyval) : py_eq x y = true ↔ x = y.
Proof.
  revert y. induction x as [|n|s|xs IH|d] using pyval_nested_ind;
    intros [|n'|s'|ys|d']; simpl; try (split; [discriminate|done]);
    try done.
  - rewrite bool_decide_eq_true. split; congruence.
  - rewrite bool_decide_eq_true. split; congruence.
  - revert ys. induction IH as [|x xs Hx _ IHxs]; intros [|y ys];
      try (split; [discriminate|done]); try done.
    rewrite andb_true_iff, Hx, IHxs. split; [intros [-> [= ->]]; done|].
    intros [= -> ->]; done.
  - rewrite bool_decide_eq_true. split; congruence.
Qed.

(** [list.remove] takes out the first element equal to the item and
    keeps the others in order; it fails exactly when no element is equal
    to it. *)
Lemma remove_first_Some (item : pyval) (xs ys : list pyval) :
  remove_first item xs = Some ys ↔
  ∃ before after, xs = before ++ item :: after ∧ (item ∉ before) ∧
                  ys = before ++ after.
Proof.
  revert ys. induction xs as [|x xs IH]; intros ys; simpl.
  - split; [done|]. intros (before & after & Hxs & _). by destruct before.
  - destruct (py_eq x item) eqn:Heq.
    + apply py_eq_true in Heq as ->. split.
      * intros [= <-]. exists [], xs. split; [done|]. split; [|done].
        apply not_elem_of_nil.
      * intros ([|b before] & after & [= Hxs] & Hnotin & ->).
        -- by subst.
        -- subst. exfalso. apply Hnotin. by left.
    + assert (x ≠ item) as Hne.
      { intros ->. assert (py_eq item item = true) by (by apply py_eq_true).
        congruence. }
      split.
      * destruct (remove_first item xs) as [zs|]; simpl; [|done].
        intros [= <-].
        destruct (proj1 (IH zs) eq_refl) as (before & after & -> & Hnotin & ->).
        exists (x :: before), after. split; [done|]. split; [|done].
        rewrite not_elem_of_cons. split; [congruence | done].
      * intros ([|b before] & after & Hxs & Hnotin & ->); simplify_eq/=.
        rewrite not_elem_of_cons in Hnotin.
        assert (remove_first item (before ++ item :: after)
                = Some (before ++ after)) as ->; [|done].
        apply IH. exists before, after. tauto.
Qed.

Lemma remove_first_None (item : pyval) (xs : list pyval) :
  remove_first item xs = None ↔ item ∉ xs.
Proof.
  induction xs as [|x xs IH]; simpl.
  - split; [intros _; apply not_elem_of_nil | done].
  - rewrite not_elem_of_cons. destruct (py_eq x item) eqn:Heq.
    + apply py_eq_true in Heq as ->. split; [done | tauto].
    + assert (item ≠ x) as Hne.
      { intros ->. assert (py_eq x x = true) by (by apply py_eq_true).
        congruence. }
      destruct (remove_first item xs); simpl.
      * split; [done|]. intros [_ Hnotin]. by apply IH in Hnotin.
      * split; [|done]. intros _. split; [done | by apply IH].
Qed.

(** ** Argument binding *)

Lemma enter_args_kwargs_run (c : call) (σ : store) :
  enter_args_kwargs c σ = (Ret tt, σ).
Proof.
  unfold enter_args_kwargs, enter, bind; simpl.
  by destruct (pos c).
Qed.

Lemma enter_kwargs_run (c : call) (σ : store) :
  enter_kwargs c σ =
  match pos c with
  | [] => (Ret tt, σ)
  | _ :: _ => (Raise TypeError, σ)
  end.
Proof.
  unfold enter_kwargs, enter, bind; simpl.
  by destruct (pos c).
Qed.

Lemma enter_history_run (c : call) (σ : store) :
  enter_history c σ =
  match bound_history c with
  | Some h => (Ret h, σ)
  | None => (Raise TypeError, σ)
  end.
Proof.
  unfold enter_history, enter, bound_history, bind; simpl.
  destruct (pos c) as [|p ps]; simpl.
  - by destruct (kw c !! "history"%string).
  - destruct (kw c !! "history"%string); simpl; [done|].
    by destruct ps.
Qed.

Lemma enter_values_history_run (c : call) (σ : store) :
  enter_values_history c σ =
  match bound_values_history c with
  | Some vh => (Ret vh, σ)
  | None => (Raise TypeError, σ)
  end.
Proof.
  unfold enter_values_history, enter, bound_values_history, bind; simpl.
  destruct (pos c) as [|v [|h ps]]; simpl;
    destruct (kw c !! "values"%string), (kw c !! "history"%string);
    simpl; try done.
  by destruct ps.
Qed.

(** ** The loop and the working copy *)

Lemma remove_one_first (v : pyval) (ws : list pyval) :
  Reference.remove_one v ws = default ws (remove_first v ws).
Proof.
  induction ws as [|w ws IH]; simpl; [done|].
  destruct (py_eq w v); [done|].
  rewrite IH. by destruct (remove_first v ws).
Qed.

Lemma consume_records (h : History) (ws : list pyval) :
  consume (records h) ws = (Ret tt, Reference.remaining ws (tried h)).
Proof.
  revert ws. induction h as [|[v f] h IH]; intros ws; simpl; [done|].
  rewrite IH. by rewrite remove_one_first.
Qed.

(** The loop ends normally or on an entry that does not unpack. *)
Lemma consume_raises (entries ws : list pyval) (e : exn) :
  (consume entries ws).1 = Raise e → e = ValueError ∨ e = TypeError.
Proof.
  revert ws. induction entries as [|x es IH]; intros ws; simpl; [done|].
  destruct (iter_data x) as [[|a [|b [|? ?]]]|]; simpl;
    try (intros [= <-]; by eauto).
  apply IH.
Qed.

Lemma consume_step (w : loc) (e : pyval) (ws : list pyval) (σ : store) :
  σ !! w = Some (ListObj ws) →
  (p <- unpack2 e ;;
   let item := p.1 in
   try_except (list_remove w item) is_ValueError (ret tt)) σ
  = match iter_data e with
    | Some [item; _] =>
        (Ret tt, <[w := ListObj (default ws (remove_first item ws))]> σ)
    | Some _ => (Raise ValueError, σ)
    | None => (Raise TypeError, σ)
    end.
Proof.
  intros Hw. unfold bind, unpack2.
  destruct (iter_data e) as [[|a [|b [|? ?]]]|]; try done.
  unfold ret at 1; simpl.
  unfold try_except, try_except_else, list_remove. rewrite Hw.
  destruct (remove_first a ws) as [ws'|]; simpl; [done|].
  unfold ret. by rewrite insert_id.
Qed.

Lemma for_each_consume (w : loc) (entries ws : list pyval) (σ : store) :
  σ !! w = Some (ListObj ws) →
  for_each entries (λ entry,
    p <- unpack2 entry ;;
    let item := p.1 in
    try_except (list_remove w item) is_ValueError (ret tt)) σ
  = ((consume entries ws).1, <[w := ListObj (consume entries ws).2]> σ).
Proof.
  set (body := λ entry : pyval, _).
  revert ws σ. induction entries as [|e es IH]; intros ws σ Hw.
  - cbn [for_each consume fst snd]. unfold ret. by rewrite insert_id.
  - cbn [for_each consume]. unfold bind at 1.
    assert (body e σ = _) as -> by exact (consume_step w e ws σ Hw).
    destruct (iter_data e) as [[|a [|b [|? ?]]]|];
      cbn [fst snd]; try (by rewrite insert_id).
    rewrite (IH (default ws (remove_first a ws)) (<[w:=ListObj (default ws (remove_first a ws))]> σ));
      [|by rewrite lookup_insert_eq].
    by rewrite insert_insert_eq.
Qed.

Lemma iter_elems_fresh (σ : store) (x : pyobj) (o : object) :
  closed σ x →
  iter_elems (<[fresh (dom σ) := o]> σ) x = iter_elems σ x.
Proof.
  destruct x as [v|l]; simpl; [done|]. intros Hl.
  rewrite lookup_insert_ne; [done|].
  intros <-. apply elem_of_dom in Hl. by apply is_fresh in Hl.
Qed.

Lemma lookup_fresh (σ : store) (l : loc) (o : object) :
  is_Some (σ !! l) → <[fresh (dom σ) := o]> σ !! l = σ !! l.
Proof.
  intros Hl. rewrite lookup_insert_ne; [done|].
  intros <-. apply elem_of_dom in Hl. by apply is_fresh in Hl.
Qed.

Lemma lookup_with_copy (σ : store) (ws : option (list pyval)) (l : loc) :
  is_Some (σ !! l) → with_copy σ ws !! l = σ !! l.
Proof. destruct ws; simpl; [apply lookup_fresh | done]. Qed.

Lemma iter_elems_with_copy (σ : store) (ws : option (list pyval)) (x : pyobj) :
  closed σ x → iter_elems (with_copy σ ws) x = iter_elems σ x.
Proof. destruct ws; simpl; [apply iter_elems_fresh | done]. Qed.

Lemma closed_with_copy (σ : store) (ws : option (list pyval)) (x : pyobj) :
  closed σ x → closed (with_copy σ ws) x.
Proof.
  destruct x as [v|l]; simpl; [done|]. intros Hl.
  by rewrite lookup_with_copy.
Qed.

Lemma iter_elems_closed (σ : store) (x : pyobj) (xs : list pyval) :
  iter_elems σ x = Some xs → closed σ x.
Proof.
  destruct x as [v|l]; simpl; [done|].
  destruct (σ !! l); [eauto | done].
Qed.

(** ** The iteration helper on a store *)

(** [_get_next_value] reads the object at [self], the elements of
    [values] and of [history], and writes one new object: the working
    copy. *)
Lemma get_next_value_run (self : loc) (values history : pyobj) (σ : store) :
  closed σ history →
  ForEachBase._get_next_value self values history σ =
  let r := next_value_of (σ !! self) (iter_elems σ values) (iter_elems σ history) in
  (r.1, with_copy σ r.2).
Proof.
  intros Hh. unfold ForEachBase._get_next_value.
  unfold bind at 1. unfold py_list, bind at 1. unfold elements at 1.
  destruct (iter_elems σ values) as [vs|]; [|done].
  unfold alloc; cbn [next_value_of].
  set (w := fresh (dom σ)).
  unfold bind at 1. unfold elements at 1.
  rewrite (iter_elems_fresh σ history _ Hh).
  destruct (iter_elems σ history) as [es|]; [|done].
  unfold bind at 1.
  rewrite (for_each_consume w es vs); [|by rewrite lookup_insert_eq].
  rewrite insert_insert_eq.
  destruct (consume es vs) as [[[]|e] ws]; cbn [fst snd with_copy]; [|done].
  unfold bind at 1. unfold list_not. rewrite lookup_insert_eq.
  destruct ws as [|v ws].
  - unfold bind, Retry.name, raise.
    destruct (decide (w = self)) as [<-|Hne].
    + rewrite lookup_insert_eq.
      assert (σ !! w = None) as ->; [|done].
      apply not_elem_of_dom, is_fresh.
    + rewrite lookup_insert_ne; [|done].
      by destruct (σ !! self) as [[|c]|].
  - unfold list_getitem. by rewrite lookup_insert_eq.
Qed.

Lemma on_failure_run (self : loc) (values history : pyobj) (σ : store) :
  closed σ history →
  ForEachBase._on_failure self values history σ =
  let r := next_value_of (σ !! self) (iter_elems σ values) (iter_elems σ history) in
  (decide_on r.1, with_copy σ r.2).
Proof.
  intros Hh. unfold ForEachBase._on_failure, try_except_else.
  rewrite get_next_value_run; [|done]. cbv zeta.
  destruct (next_value_of _ _ _) as [[v|[]] ws]; done.
Qed.

(** On a collection and a well-formed history the outcome is the one of
    the reference. *)
Lemma next_value_of_records (c : instance) (vs : list pyval) (h : History) :
  next_value_of (Some (RetryObj c)) (Some vs) (Some (records h)) =
  match Reference.remaining vs (tried h) with
  | [] => (Raise (NotFound (ForEachBase.not_found_msg (instance_name c))), Some [])
  | v :: ws => (Ret v, Some (v :: ws))
  end.
Proof. unfold next_value_of. by rewrite consume_records. Qed.

Lemma not_found_msg_carries (name : string) :
  Reference.carries (ForEachBase.not_found_msg name) name.
Proof.
  exists "No elements left in collection of iterable retry controller "%string,
    ""%string.
  unfold ForEachBase.not_found_msg.
  assert (name +:+ "" = name) as ->; [|done].
  induction name as [|a name IH]; [done|].
  change (String a (name +:+ "") = String a name). by f_equal.
Qed.

(** Whatever its arguments, [_get_next_value] writes the store only by
    adding its working copy. *)
Lemma get_next_value_store (self : loc) (values history : pyobj) (σ : store) :
  ∃ ws, (ForEachBase._get_next_value self values history σ).2 = with_copy σ ws.
Proof.
  unfold ForEachBase._get_next_value.
  unfold bind at 1. unfold py_list, bind at 1. unfold elements at 1.
  destruct (iter_elems σ values) as [vs|]; [|by exists None].
  unfold alloc. set (w := fresh (dom σ)).
  unfold bind at 1. unfold elements at 1.
  destruct (iter_elems _ history) as [es|]; [|by exists (Some vs)].
  unfold bind at 1.
  rewrite (for_each_consume w es vs); [|by rewrite lookup_insert_eq].
  rewrite insert_insert_eq.
  destruct (consume es vs) as [[[]|e] ws]; cbn [fst snd];
    [|by exists (Some ws)].
  exists (Some ws).
  unfold bind at 1. unfold list_not. rewrite lookup_insert_eq.
  destruct ws as [|v ws].
  - unfold bind, Retry.name, raise.
    by destruct (_ !! self) as [[|c]|].
  - unfold list_getitem. by rewrite lookup_insert_eq.
Qed.

Lemma on_failure_store (self : loc) (values history : pyobj) (σ : store) :
  ∃ ws, (ForEachBase._on_failure self values history σ).2 = with_copy σ ws.
Proof.
  destruct (get_next_value_store self values history σ) as [ws Hws].
  exists ws. unfold ForEachBase._on_failure, try_except_else.
  destruct (ForEachBase._get_next_value _ _ _ _) as [[v|[]] σ']; done.
Qed.

(** The same for the public methods of the two collection strategies. *)
Lemma for_each_store (self : loc) (c : call) (σ : store) :
  (∃ ws, (ForEach.on_failure self c σ).2 = with_copy σ ws) ∧
  (∃ ws, (ForEach.execute self c σ).2 = with_copy σ ws).
Proof.
  unfold ForEach.on_failure, ForEach.execute, bind.
  rewrite enter_history_run.
  destruct (bound_history c) as [history|]; [|split; by exists None].
  unfold ForEach._values.
  destruct (σ !! self) as [[|[]]|]; try (split; by exists None).
  split; [apply on_failure_store | apply get_next_value_store].
Qed.

Lemma parameterized_store (self : loc) (c : call) (σ : store) :
  (∃ ws, (ParameterizedForEach.on_failure self c σ).2 = with_copy σ ws) ∧
  (∃ ws, (ParameterizedForEach.execute self c σ).2 = with_copy σ ws).
Proof.
  unfold ParameterizedForEach.on_failure, ParameterizedForEach.execute, bind.
  rewrite enter_values_history_run.
  destruct (bound_values_history c) as [[values history]|];
    [|split; by exists None].
  split; [apply on_failure_store | apply get_next_value_store].
Qed.

(** A method call writes the store only by adding a working copy. *)
Lemma call_on_failure_store (self : loc) (c : call) (σ : store) :
  ∃ ws, (call_on_failure self c σ).2 = with_copy σ ws.
Proof.
  unfold call_on_failure.
  destruct (σ !! self) as [[|[]]|]; try (by exists None).
  - unfold AlwaysRevert.on_failure, bind. rewrite enter_args_kwargs_run.
    by exists None.
  - unfold AlwaysRevertAll.on_failure, bind. rewrite enter_kwargs_run.
    exists None. by destruct (pos c).
  - unfold Times.on_failure, bind. rewrite enter_history_run.
    exists None. destruct (bound_history c) as [history|]; [|done].
    unfold py_len, bind, elements.
    destruct (iter_elems σ history); [|done].
    unfold ret at 1. unfold Times._attempts.
    destruct (σ !! self) as [[|[]]|]; try done. by case_bool_decide.
  - apply for_each_store.
  - apply parameterized_store.
Qed.

Lemma call_execute_store (self : loc) (c : call) (σ : store) :
  ∃ ws, (call_execute self c σ).2 = with_copy σ ws.
Proof.
  unfold call_execute.
  destruct (σ !! self) as [[|[]]|]; try (by exists None).
  - unfold AlwaysRevert.execute, bind. rewrite enter_args_kwargs_run.
    by exists None.
  - unfold AlwaysRevertAll.execute, bind. rewrite enter_kwargs_run.
    exists None. by destruct (pos c).
  - unfold Times.execute, bind. rewrite enter_history_run.
    exists None. destruct (bound_history c) as [history|]; [|done].
    unfold py_len, bind, elements.
    by destruct (iter_elems σ history).
  - apply for_each_store.
  - apply parameterized_store.
Qed.

(** ** The strategies on the sample store *)

(** [ForEach([a, a, b])] on the empty history: the first candidate, and
    a retry. *)
Example for_each_first_attempt :
  (call_execute Sample.for_each (by_position [ORef Sample.nothing]) Sample.σ).1
    = Ret Sample.a ∧
  (call_on_failure Sample.for_each (by_position [ORef Sample.nothing]) Sample.σ).1
    = Ret RETRY.
Proof. split; reflexivity. Qed.

(** After one attempt with [a]: one occurrence is consumed, the other is
    next, and the working copy [[a; b]] is a new object beside the
    collection. *)
Example for_each_duplicate :
  call_execute Sample.for_each Sample.kw_history Sample.σ
    = (Ret Sample.a, <[12%positive := ListObj [Sample.a; Sample.b]]> Sample.σ).
Proof. by vm_compute. Qed.

(** A recorded value that is no candidate is passed over. *)
Example removal_tolerance :
  Reference.remaining [Sample.a; Sample.b] [PStr "z"] = [Sample.a; Sample.b] ∧
  (ForEachBase._get_next_value Sample.parameterized (ORef Sample.numbers)
     (ORef Sample.past) Sample.σ).1 = Ret (PInt 1).
Proof. split; reflexivity. Qed.

(** [Times(2)] after one failed attempt: retry, and the attempt to come
    is the second. *)
Example times_second_attempt :
  (call_on_failure Sample.times Sample.kw_history Sample.σ).1 = Ret RETRY ∧
  (call_execute Sample.times Sample.kw_history Sample.σ).1 = Ret (PInt 2).
Proof. split; reflexivity. Qed.

(** [set_name] is the method that writes the instance: the name read
    afterwards is the new one. *)
Lemma set_name_then_name (σ : store) (self : loc) (i : instance) (n : string) :
  σ !! self = Some (RetryObj i) →
  (_ <- Retry.set_name self n ;; Retry.name self) σ
    = (Ret n, <[self := RetryObj (instance_set_name n i)]> σ).
Proof.
  intros Hself. unfold bind, Retry.set_name, Retry.name.
  rewrite Hself, lookup_insert_eq. by destruct i.
Qed.

(** ** The claims on the iteration helper *)

(** C1.  [ForEachBase._get_next_value] equals the reference of section
    4.3: from a copy of the collection, each attempt record of the history
    removes, in order, one occurrence of its recorded value if there is
    one; if nothing remains the call fails with [NotFound] and a message
    that carries the controller's name, otherwise it returns the first
    remaining candidate. *)
Theorem get_next_value_is_reference (σ : store) (self : loc) (c : instance)
    (values history : pyobj) (vs : list pyval) (h : History) :
  σ !! self = Some (RetryObj c) →
  iter_elems σ values = Some vs →
  iter_elems σ history = Some (records h) →
  Reference.is_next_value (instance_name c) vs (tried h)
    (ForEachBase._get_next_value self values history σ).1.
Proof.
  intros Hself Hvs Hh.
  rewrite get_next_value_run; [|by eapply iter_elems_closed].
  rewrite Hself, Hvs, Hh, next_value_of_records. cbv zeta.
  unfold Reference.is_next_value.
  destruct (Reference.remaining vs (tried h)) as [|v ws]; [|done].
  eexists. split; [done|]. apply not_found_msg_carries.
Qed.

Lemma get_next_value_is_reference_witness :
  Sample.σ !! Sample.for_each = Some (RetryObj (ForEachI "fe" (ORef Sample.candidates))) ∧
  iter_elems Sample.σ (ORef Sample.candidates) = Some [Sample.a; Sample.a; Sample.b] ∧
  iter_elems Sample.σ (ORef Sample.past) = Some (records Sample.one_failure) ∧
  Reference.is_next_value "fe" [Sample.a; Sample.a; Sample.b]
    (tried Sample.one_failure)
    (ForEachBase._get_next_value Sample.for_each (ORef Sample.candidates)
       (ORef Sample.past) Sample.σ).1.
Proof.
  split; [reflexivity|]. split; [reflexivity|]. split; [reflexivity|].
  apply (get_next_value_is_reference Sample.σ Sample.for_each
           (ForEachI "fe" (ORef Sample.candidates))); reflexivity.
Defined.

(** C3.  On every collection and every history, [ForEachBase._on_failure]
    returns [RETRY] exactly when a candidate remains unconsumed and
    [REVERT] exactly when the collection is exhausted; it never returns
    [REVERT_ALL], and no exception leaves it: the [NotFound] of the
    exhausted collection is caught. *)
Theorem on_failure_retry_iff_remaining (σ : store) (self : loc) (c : instance)
    (values history : pyobj) (vs : list pyval) (h : History) :
  σ !! self = Some (RetryObj c) →
  iter_elems σ values = Some vs →
  iter_elems σ history = Some (records h) →
  let r := (ForEachBase._on_failure self values history σ).1 in
  (r = Ret RETRY ↔ Reference.remaining vs (tried h) ≠ []) ∧
  (r = Ret REVERT ↔ Reference.remaining vs (tried h) = []) ∧
  r ≠ Ret REVERT_ALL ∧
  (∀ e, r ≠ Raise e).
Proof.
  intros Hself Hvs Hh.
  rewrite on_failure_run; [|by eapply iter_elems_closed].
  rewrite Hself, Hvs, Hh, next_value_of_records. cbv zeta.
  destruct (Reference.remaining vs (tried h)) as [|v ws]; cbn [fst decide_on];
    repeat split; intros; try done; try congruence.
Qed.

Lemma on_failure_retry_iff_remaining_witness :
  Sample.σ !! Sample.for_each = Some (RetryObj (ForEachI "fe" (ORef Sample.candidates))) ∧
  iter_elems Sample.σ (ORef Sample.candidates) = Some [Sample.a; Sample.a; Sample.b] ∧
  iter_elems Sample.σ (ORef Sample.past) = Some (records Sample.one_failure) ∧
  let r := (ForEachBase._on_failure Sample.for_each (ORef Sample.candidates)
              (ORef Sample.past) Sample.σ).1 in
  (r = Ret RETRY ↔
     Reference.remaining [Sample.a; Sample.a; Sample.b] (tried Sample.one_failure) ≠ []) ∧
  (r = Ret REVERT ↔
     Reference.remaining [Sample.a; Sample.a; Sample.b] (tried Sample.one_failure) = []) ∧
  r ≠ Ret REVERT_ALL ∧
  (∀ e, r ≠ Raise e).
Proof.
  split; [reflexivity|]. split; [reflexivity|]. split; [reflexivity|].
  apply (on_failure_retry_iff_remaining Sample.σ Sample.for_each
           (ForEachI "fe" (ORef Sample.candidates))); reflexivity.
Defined.

(** C7.  The next-value computation, the failure decision and the public
    methods built on them (those of [ForEach] and [ParameterizedForEach],
    and a method call on any controller) leave every object that exists
    when they are called as it is, the candidate collection and the
    history among them: the removals are made on a copy, which is a new
    object, and the history is only read. *)
Theorem iteration_leaves_objects_unchanged (σ : store) (self : loc)
    (values history : pyobj) (c : call) (l : loc) :
  is_Some (σ !! l) →
  (ForEachBase._get_next_value self values history σ).2 !! l = σ !! l ∧
  (ForEachBase._on_failure self values history σ).2 !! l = σ !! l ∧
  (ForEach.on_failure self c σ).2 !! l = σ !! l ∧
  (ForEach.execute self c σ).2 !! l = σ !! l ∧
  (ParameterizedForEach.on_failure self c σ).2 !! l = σ !! l ∧
  (ParameterizedForEach.execute self c σ).2 !! l = σ !! l ∧
  (call_on_failure self c σ).2 !! l = σ !! l ∧
  (call_execute self c σ).2 !! l = σ !! l.
Proof.
  intros Hl.
  destruct (get_next_value_store self values history σ) as [w1 ->].
  destruct (on_failure_store self values history σ) as [w2 ->].
  destruct (for_each_store self c σ) as [[w3 ->] [w4 ->]].
  destruct (parameterized_store self c σ) as [[w5 ->] [w6 ->]].
  destruct (call_on_failure_store self c σ) as [w7 ->].
  destruct (call_execute_store self c σ) as [w8 ->].
  repeat split; by apply lookup_with_copy.
Qed.

Lemma iteration_leaves_objects_unchanged_witness :
  is_Some (Sample.σ !! Sample.candidates) ∧
  (ForEachBase._get_next_value Sample.for_each (ORef Sample.candidates)
     (ORef Sample.past) Sample.σ).2 !! Sample.candidates
  = Sample.σ !! Sample.candidates.
Proof.
  split; [by eexists|].
  apply (iteration_leaves_objects_unchanged Sample.σ Sample.for_each
           (ORef Sample.candidates) (ORef Sample.past) Sample.kw_history
           Sample.candidates).
  by eexists.
Defined.

Lemma remaining_nil (recorded : list pyval) : Reference.remaining [] recorded = [].
Proof. unfold Reference.remaining. by induction recorded. Qed.

(** C9.  On an empty candidate collection, whatever the history (the
    empty one included), [on_failure] of [ForEach] and of
    [ParameterizedForEach] returns [REVERT] and their [execute] fails with
    [NotFound]: the collection is exhausted before any attempt. *)
Theorem empty_collection_is_exhausted (σ : store) (fe pfe : loc)
    (name_fe name_pfe : string) (values history : pyobj) (h : History)
    (c_fe c_pfe : call) :
  σ !! fe = Some (RetryObj (ForEachI name_fe values)) →
  σ !! pfe = Some (RetryObj (ParameterizedForEachI name_pfe)) →
  iter_elems σ values = Some [] →
  iter_elems σ history = Some (records h) →
  bound_history c_fe = Some history →
  bound_values_history c_pfe = Some (values, history) →
  (ForEach.on_failure fe c_fe σ).1 = Ret REVERT ∧
  (ForEach.execute fe c_fe σ).1
    = Raise (NotFound (ForEachBase.not_found_msg name_fe)) ∧
  (ParameterizedForEach.on_failure pfe c_pfe σ).1 = Ret REVERT ∧
  (ParameterizedForEach.execute pfe c_pfe σ).1
    = Raise (NotFound (ForEachBase.not_found_msg name_pfe)).
Proof.
  intros Hfe Hpfe Hvs Hh Hc_fe Hc_pfe.
  assert (closed σ history) as Hcl by (by eapply iter_elems_closed).
  unfold ForEach.on_failure, ForEach.execute, ParameterizedForEach.on_failure,
    ParameterizedForEach.execute, bind.
  rewrite enter_history_run, Hc_fe, enter_values_history_run, Hc_pfe.
  unfold ForEach._values. rewrite Hfe. cbn [fst snd].
  rewrite !on_failure_run, !get_next_value_run by done.
  rewrite Hfe, Hpfe, Hvs, Hh, !next_value_of_records, remaining_nil.
  done.
Qed.

Lemma empty_collection_is_exhausted_witness :
  (ForEach.on_failure Sample.for_each_nothing Sample.kw_history Sample.σ).1
    = Ret REVERT ∧
  (ForEach.execute Sample.for_each_nothing Sample.kw_history Sample.σ).1
    = Raise (NotFound (ForEachBase.not_found_msg "none")) ∧
  (ParameterizedForEach.on_failure Sample.parameterized
     (by_position [ORef Sample.nothing; ORef Sample.past]) Sample.σ).1
    = Ret REVERT ∧
  (ParameterizedForEach.execute Sample.parameterized
     (by_position [ORef Sample.nothing; ORef Sample.past]) Sample.σ).1
    = Raise (NotFound (ForEachBase.not_found_msg "pfe")).
Proof.
  apply (empty_collection_is_exhausted Sample.σ Sample.for_each_nothing
           Sample.parameterized "none" "pfe" (ORef Sample.nothing)
           (ORef Sample.past) Sample.one_failure); reflexivity.
Defined.

(** ** The simple strategies *)

Lemma times_run (σ : store) (self : loc) (name : string) (n : Z) (c : call)
    (history : pyobj) (es : list pyval) :
  σ !! self = Some (RetryObj (TimesI name n)) →
  bound_history c = Some history →
  iter_elems σ history = Some es →
  Times.on_failure self c σ
    = (Ret (if bool_decide (Z.of_nat (length es) < n) then RETRY else REVERT), σ) ∧
  Times.execute self c σ = (Ret (PInt (Z.of_nat (length es) + 1)), σ).
Proof.
  intros Hself Hc Hes.
  unfold Times.on_failure, Times.execute, bind.
  rewrite enter_history_run, Hc.
  unfold py_len, bind, elements. rewrite Hes.
  unfold ret at 1 3. unfold Times._attempts. rewrite Hself.
  by case_bool_decide.
Qed.

(** C2.  For [Times] with bound [n] (positive, or any integer) and every
    history of length [k], handed as the first positional argument or by
    keyword: [on_failure] returns [RETRY] when [k < n] and [REVERT] when
    [k >= n], and [execute] returns [k + 1].  Both leave the store as it
    is: the attempt number comes from the length of the history alone,
    the instance keeps no counter. *)
Theorem times_counts_history (σ : store) (self : loc) (name : string) (n : Z)
    (c : call) (history : pyobj) (h : History) :
  0 < n →
  σ !! self = Some (RetryObj (TimesI name n)) →
  bound_history c = Some history →
  iter_elems σ history = Some (records h) →
  let k := Z.of_nat (length h) in
  (k < n → Times.on_failure self c σ = (Ret RETRY, σ)) ∧
  (n ≤ k → Times.on_failure self c σ = (Ret REVERT, σ)) ∧
  Times.execute self c σ = (Ret (PInt (k + 1)), σ).
Proof.
  intros _ Hself Hc Hh k.
  destruct (times_run σ self name n c history _ Hself Hc Hh) as [Hf He].
  unfold records in Hf, He. rewrite length_fmap in Hf, He. fold k in Hf, He.
  rewrite Hf, He. repeat split; intros; case_bool_decide; done || lia.
Qed.

Lemma times_counts_history_witness :
  0 < 2 ∧
  Sample.σ !! Sample.times = Some (RetryObj (TimesI "times" 2)) ∧
  bound_history (by_position [ORef Sample.past]) = Some (ORef Sample.past) ∧
  iter_elems Sample.σ (ORef Sample.past) = Some (records Sample.one_failure) ∧
  Times.on_failure Sample.times (by_position [ORef Sample.past]) Sample.σ
    = (Ret RETRY, Sample.σ) ∧
  Times.execute Sample.times (by_position [ORef Sample.past]) Sample.σ
    = (Ret (PInt 2), Sample.σ).
Proof.
  split; [lia|]. split; [reflexivity|]. split; [reflexivity|].
  split; [reflexivity|].
  destruct (times_counts_history Sample.σ Sample.times "times" 2
              (by_position [ORef Sample.past]) (ORef Sample.past)
              Sample.one_failure) as (Hretry & _ & Hexec);
    [lia | reflexivity | reflexivity | reflexivity |].
  split; [apply Hretry; simpl; lia | exact Hexec].
Defined.

(** C5.  [AlwaysRevert.on_failure] returns [REVERT] and
    [AlwaysRevertAll.on_failure] returns [REVERT_ALL] on every history,
    whatever it holds and however long it is (no method reads it), and
    [execute] of both returns [None] without failing.  [AlwaysRevert]
    takes any call; [AlwaysRevertAll], whose methods are declared with
    keyword parameters only, takes the history by keyword. *)
Theorem always_revert_is_constant (σ : store) (self : loc) (c : call)
    (history : pyobj) (kws : gmap string pyobj) :
  AlwaysRevert.on_failure self c σ = (Ret REVERT, σ) ∧
  AlwaysRevert.execute self c σ = (Ret PNone, σ) ∧
  AlwaysRevertAll.on_failure self
    (by_keyword (<["history"%string := history]> kws)) σ = (Ret REVERT_ALL, σ) ∧
  AlwaysRevertAll.execute self
    (by_keyword (<["history"%string := history]> kws)) σ = (Ret PNone, σ).
Proof.
  unfold AlwaysRevert.on_failure, AlwaysRevert.execute,
    AlwaysRevertAll.on_failure, AlwaysRevertAll.execute, bind.
  by rewrite enter_args_kwargs_run, enter_kwargs_run.
Qed.

(** ** Failure details *)

Lemma times_ignores_entries (σ : store) (self : loc) (name : string) (n : Z)
    (c1 c2 : call) (history1 history2 : pyobj) (es1 es2 : list pyval) :
  σ !! self = Some (RetryObj (TimesI name n)) →
  bound_history c1 = Some history1 →
  bound_history c2 = Some history2 →
  iter_elems σ history1 = Some es1 →
  iter_elems σ history2 = Some es2 →
  length es1 = length es2 →
  Times.on_failure self c1 σ = Times.on_failure self c2 σ ∧
  Times.execute self c1 σ = Times.execute self c2 σ.
Proof.
  intros Hself Hc1 Hc2 Hes1 Hes2 Hlen.
  destruct (times_run σ self name n c1 history1 es1) as [-> ->]; try done.
  destruct (times_run σ self name n c2 history2 es2) as [-> ->]; try done.
  by rewrite Hlen.
Qed.

Lemma helper_ignores_failures (σ : store) (self : loc)
    (values history1 history2 : pyobj) (h1 h2 : History) :
  iter_elems σ history1 = Some (records h1) →
  iter_elems σ history2 = Some (records h2) →
  tried h1 = tried h2 →
  ForEachBase._get_next_value self values history1 σ
    = ForEachBase._get_next_value self values history2 σ ∧
  ForEachBase._on_failure self values history1 σ
    = ForEachBase._on_failure self values history2 σ.
Proof.
  intros Hh1 Hh2 Htried.
  rewrite !on_failure_run, !get_next_value_run by (by eapply iter_elems_closed).
  rewrite Hh1, Hh2. unfold next_value_of.
  destruct (iter_elems σ values) as [vs|]; [|done].
  by rewrite !consume_records, Htried.
Qed.

(** C10.  The failures recorded in a history are never looked at.  Two
    histories of equal length give the same [Times.on_failure] and
    [Times.execute]; two histories with the same sequence of recorded
    values give the same next value and the same decision of the
    collection strategies, whatever their failure maps hold. *)
Theorem failure_details_are_ignored (σ : store) (times self : loc)
    (name : string) (n : Z) (c1 c2 : call)
    (values history1 history2 : pyobj) (h1 h2 : History) :
  σ !! times = Some (RetryObj (TimesI name n)) →
  bound_history c1 = Some history1 →
  bound_history c2 = Some history2 →
  iter_elems σ history1 = Some (records h1) →
  iter_elems σ history2 = Some (records h2) →
  (length h1 = length h2 →
     Times.on_failure times c1 σ = Times.on_failure times c2 σ ∧
     Times.execute times c1 σ = Times.execute times c2 σ) ∧
  (tried h1 = tried h2 →
     ForEachBase._get_next_value self values history1 σ
       = ForEachBase._get_next_value self values history2 σ ∧
     ForEachBase._on_failure self values history1 σ
       = ForEachBase._on_failure self values history2 σ).
Proof.
  intros Htimes Hc1 Hc2 Hh1 Hh2. split.
  - intros Hlen. eapply times_ignores_entries; try done.
    unfold records. by rewrite !length_fmap.
  - intros Htried. by eapply helper_ignores_failures.
Qed.

Lemma failure_details_are_ignored_witness :
  Sample.one_failure ≠ Sample.other_failure ∧
  length Sample.one_failure = length Sample.other_failure ∧
  tried Sample.one_failure = tried Sample.other_failure ∧
  Times.on_failure Sample.times (by_position [ORef Sample.past]) Sample.σ
    = Times.on_failure Sample.times (by_position [ORef Sample.past_again]) Sample.σ ∧
  ForEachBase._get_next_value Sample.for_each (ORef Sample.candidates)
    (ORef Sample.past) Sample.σ
    = ForEachBase._get_next_value Sample.for_each (ORef Sample.candidates)
        (ORef Sample.past_again) Sample.σ.
Proof.
  split; [discriminate|]. split; [reflexivity|]. split; [reflexivity|].
  destruct (failure_details_are_ignored Sample.σ Sample.times Sample.for_each
              "times" 2 (by_position [ORef Sample.past])
              (by_position [ORef Sample.past_again])
              (ORef Sample.candidates) (ORef Sample.past)
              (ORef Sample.past_again) Sample.one_failure Sample.other_failure)
    as [Htimes Hhelper]; try reflexivity.
  split; [apply Htimes; reflexivity | apply Hhelper; reflexivity].
Defined.

(** ** The decision of every strategy *)

Lemma decide_on_records_action (c : instance) (vs : list pyval) (h : History) :
  ∃ a, decide_on (next_value_of (Some (RetryObj c)) (Some vs)
                    (Some (records h))).1 = Ret a ∧ is_action a.
Proof.
  rewrite next_value_of_records. unfold is_action.
  destruct (Reference.remaining vs (tried h)); eexists; split; eauto.
Qed.

(** C4, as the code has it.  For every strategy and every well-formed
    history that reaches the [history] parameter of its [on_failure] (by
    keyword for all five; also as the first positional argument for
    [AlwaysRevert], [Times] and [ForEach], and as the second one, after
    the collection, for [ParameterizedForEach]), the collection being one
    that can be iterated, [on_failure] returns one of [RETRY], [REVERT],
    [REVERT_ALL] and raises nothing. *)
Theorem on_failure_returns_an_action (σ : store) (self : loc) (i : instance)
    (c : call) (history : pyobj) (h : History) :
  σ !! self = Some (RetryObj i) →
  iter_elems σ history = Some (records h) →
  takes σ i c history →
  ∃ a, (call_on_failure self c σ).1 = Ret a ∧ is_action a.
Proof.
  intros Hself Hh Htakes.
  assert (closed σ history) as Hcl by (by eapply iter_elems_closed).
  unfold call_on_failure. rewrite Hself.
  destruct i as [name|name|name n|name values|name]; simpl in Htakes.
  - unfold AlwaysRevert.on_failure, bind. rewrite enter_args_kwargs_run.
    exists REVERT. unfold is_action. eauto.
  - unfold AlwaysRevertAll.on_failure, bind. rewrite enter_kwargs_run, Htakes.
    exists REVERT_ALL. unfold is_action. eauto.
  - destruct (times_run σ self name n c history _ Hself Htakes Hh) as [-> _].
    unfold is_action. case_bool_decide; eauto.
  - destruct Htakes as [Hc [vs Hvs]].
    unfold ForEach.on_failure, bind. rewrite enter_history_run, Hc.
    unfold ForEach._values. rewrite Hself.
    rewrite on_failure_run by done. rewrite Hself, Hvs, Hh.
    apply decide_on_records_action.
  - destruct Htakes as (values & Hc & [vs Hvs]).
    unfold ParameterizedForEach.on_failure, bind.
    rewrite enter_values_history_run, Hc. cbn [fst snd].
    rewrite on_failure_run by done. rewrite Hself, Hvs, Hh.
    apply decide_on_records_action.
Qed.

Lemma on_failure_returns_an_action_witness :
  Sample.σ !! Sample.parameterized = Some (RetryObj (ParameterizedForEachI "pfe")) ∧
  iter_elems Sample.σ (ORef Sample.past) = Some (records Sample.one_failure) ∧
  takes Sample.σ (ParameterizedForEachI "pfe") Sample.kw_values_history
    (ORef Sample.past) ∧
  ∃ a, (call_on_failure Sample.parameterized Sample.kw_values_history Sample.σ).1
       = Ret a ∧ is_action a.
Proof.
  assert (takes Sample.σ (ParameterizedForEachI "pfe") Sample.kw_values_history
            (ORef Sample.past)) as Htakes.
  { exists (ORef Sample.candidates). split; [reflexivity | by eexists]. }
  split; [reflexivity|]. split; [reflexivity|]. split; [exact Htakes|].
  apply (on_failure_returns_an_action Sample.σ Sample.parameterized
           (ParameterizedForEachI "pfe") Sample.kw_values_history
           (ORef Sample.past) Sample.one_failure);
    [reflexivity | reflexivity | exact Htakes].
Defined.

(** Every strategy takes the history by keyword (the collection of
    [ParameterizedForEach] too). *)
Lemma by_keyword_takes (σ : store) (i : instance) (kws : gmap string pyobj)
    (history values : pyobj) :
  kws !! "history"%string = Some history →
  match i with
  | ForEachI _ vs => is_Some (iter_elems σ vs)
  | ParameterizedForEachI _ =>
      kws !! "values"%string = Some values ∧ is_Some (iter_elems σ values)
  | _ => True
  end →
  takes σ i (by_keyword kws) history.
Proof.
  intros Hh Hi. destruct i; cbn [takes]; try done.
  destruct Hi as [Hv Hvs]. exists values. split; [|done].
  unfold bound_values_history, by_keyword; cbn [pos kw]. by rewrite Hv, Hh.
Qed.

(** C4, as it is worded, fails: a well-formed history passed as the first
    positional argument makes [AlwaysRevertAll.on_failure] raise
    [TypeError] (the method is declared with keyword parameters only),
    and passed first with a collection after it makes
    [ParameterizedForEach.on_failure] take it for the collection and raise
    [TypeError] when it unpacks a candidate as an attempt record. *)
Lemma on_failure_history_first_raises :
  iter_elems Sample.σ (ORef Sample.past) = Some (records Sample.one_failure) ∧
  iter_elems Sample.σ (ORef Sample.numbers) = Some [PInt 1; PInt 2] ∧
  (call_on_failure Sample.always_revert_all
     (by_position [ORef Sample.past]) Sample.σ).1 = Raise TypeError ∧
  (call_on_failure Sample.parameterized
     (by_position [ORef Sample.past; ORef Sample.numbers]) Sample.σ).1
    = Raise TypeError ∧
  ¬ (∃ a, (call_on_failure Sample.always_revert_all
             (by_position [ORef Sample.past]) Sample.σ).1 = Ret a ∧ is_action a).
Proof.
  repeat split; try reflexivity.
  intros (a & Ha & _). vm_compute in Ha. discriminate.
Qed.

(** ** ParameterizedForEach and ForEach *)

(** C6, as the code has it.  With the collection and the history bound to
    the parameters [values] and [history] of its methods (both by
    keyword, or positionally in that order: the collection first, the
    history second), [ParameterizedForEach] decides as [ForEach] does on
    that collection and the same history, and its [execute] returns the
    same value or fails on the same exhaustion, each message naming its
    own controller; both leave the same store. *)
Theorem parameterized_as_for_each (σ : store) (fe pfe : loc)
    (name_fe name_pfe : string) (values history : pyobj) (c_fe c_pfe : call) :
  σ !! fe = Some (RetryObj (ForEachI name_fe values)) →
  σ !! pfe = Some (RetryObj (ParameterizedForEachI name_pfe)) →
  closed σ history →
  bound_history c_fe = Some history →
  bound_values_history c_pfe = Some (values, history) →
  ParameterizedForEach.on_failure pfe c_pfe σ = ForEach.on_failure fe c_fe σ ∧
  ParameterizedForEach.execute pfe c_pfe σ
    = (renamed name_pfe (ForEach.execute fe c_fe σ).1,
       (ForEach.execute fe c_fe σ).2) ∧
  (ForEach.execute fe c_fe σ).1
    = renamed name_fe (ParameterizedForEach.execute pfe c_pfe σ).1.
Proof.
  intros Hfe Hpfe Hcl Hc_fe Hc_pfe.
  unfold ForEach.on_failure, ForEach.execute, ParameterizedForEach.on_failure,
    ParameterizedForEach.execute, bind.
  rewrite enter_history_run, Hc_fe, enter_values_history_run, Hc_pfe.
  unfold ForEach._values. rewrite Hfe. cbn [fst snd].
  rewrite !on_failure_run, !get_next_value_run by done.
  rewrite Hfe, Hpfe. unfold next_value_of. cbv zeta.
  destruct (iter_elems σ values) as [vs|]; [|done].
  destruct (iter_elems σ history) as [es|]; [|done].
  pose proof (consume_raises es vs) as Hraise.
  destruct (consume es vs) as [[[]|e] [|v ws]]; try done;
    destruct (Hraise e eq_refl) as [-> | ->]; done.
Qed.

Lemma parameterized_as_for_each_witness :
  Sample.σ !! Sample.for_each = Some (RetryObj (ForEachI "fe" (ORef Sample.candidates))) ∧
  Sample.σ !! Sample.parameterized = Some (RetryObj (ParameterizedForEachI "pfe")) ∧
  closed Sample.σ (ORef Sample.past) ∧
  bound_history Sample.kw_history = Some (ORef Sample.past) ∧
  bound_values_history Sample.kw_values_history
    = Some (ORef Sample.candidates, ORef Sample.past) ∧
  ParameterizedForEach.on_failure Sample.parameterized Sample.kw_values_history Sample.σ
    = ForEach.on_failure Sample.for_each Sample.kw_history Sample.σ.
Proof.
  assert (closed Sample.σ (ORef Sample.past)) as Hcl by (by eexists).
  split; [reflexivity|]. split; [reflexivity|]. split; [exact Hcl|].
  split; [reflexivity|]. split; [reflexivity|].
  apply (parameterized_as_for_each Sample.σ Sample.for_each Sample.parameterized
           "fe" "pfe" (ORef Sample.candidates) (ORef Sample.past)
           Sample.kw_history Sample.kw_values_history);
    [reflexivity | reflexivity | exact Hcl | reflexivity | reflexivity].
Defined.

(** C6, as it is worded, fails: with the history in the first argument
    position and the collection after it, [ParameterizedForEach] takes the
    history for the collection.  On the empty collection and a history of
    one attempt, [ForEach] reverts and its [execute] fails, while
    [ParameterizedForEach] retries and its [execute] returns the attempt
    record. *)
Lemma parameterized_history_first_differs :
  Sample.σ !! Sample.for_each_nothing
    = Some (RetryObj (ForEachI "none" (ORef Sample.nothing))) ∧
  iter_elems Sample.σ (ORef Sample.nothing) = Some [] ∧
  iter_elems Sample.σ (ORef Sample.past) = Some (records Sample.one_failure) ∧
  (ForEach.on_failure Sample.for_each_nothing
     (by_position [ORef Sample.past]) Sample.σ).1 = Ret REVERT ∧
  (ParameterizedForEach.on_failure Sample.parameterized
     (by_position [ORef Sample.past; ORef Sample.nothing]) Sample.σ).1 = Ret RETRY ∧
  (ForEach.execute Sample.for_each_nothing
     (by_position [ORef Sample.past]) Sample.σ).1
    = Raise (NotFound (ForEachBase.not_found_msg "none")) ∧
  (ParameterizedForEach.execute Sample.parameterized
     (by_position [ORef Sample.past; ORef Sample.nothing]) Sample.σ).1
    = Ret (PTuple [Sample.a; PDict {["task" := "boom"]}]).
Proof. repeat split; reflexivity. Qed.

(** ** Repeated calls *)

Lemma bound_history_closed (σ : store) (c : call) (history : pyobj) :
  call_closed σ c → bound_history c = Some history → closed σ history.
Proof.
  intros [Hpos Hkw]. unfold bound_history.
  destruct (pos c) as [|p ps] eqn:Hp.
  - intros Hh. by eapply Hkw.
  - destruct (kw c !! "history"%string); [done|]. intros [= <-].
    by inversion Hpos.
Qed.

Lemma bound_values_history_closed (σ : store) (c : call) (values history : pyobj) :
  call_closed σ c → bound_values_history c = Some (values, history) →
  closed σ values ∧ closed σ history.
Proof.
  intros [Hpos Hkw]. unfold bound_values_history.
  destruct (pos c) as [|v [|h ps]] eqn:Hp;
    destruct (kw c !! "values"%string) as [v'|] eqn:Hv;
    destruct (kw c !! "history"%string) as [h'|] eqn:Hh;
    try done; intros [= <- <-].
  - split; by eapply Hkw.
  - split; [by inversion Hpos | by eapply Hkw].
  - inversion Hpos as [|? ? ? Hps]; subst. by inversion Hps.
Qed.

(** What [on_failure] answers is the same in the store a working copy
    was added to. *)
Lemma call_on_failure_stable (σ : store) (self : loc) (i : instance) (c : call)
    (ws : option (list pyval)) :
  σ !! self = Some (RetryObj i) →
  instance_closed σ i →
  call_closed σ c →
  (call_on_failure self c (with_copy σ ws)).1 = (call_on_failure self c σ).1.
Proof.
  intros Hself Hi Hc.
  assert (with_copy σ ws !! self = Some (RetryObj i)) as Hself'.
  { rewrite lookup_with_copy; [done | by eexists]. }
  unfold call_on_failure. rewrite Hself, Hself'.
  destruct i as [name|name|name n|name values|name]; simpl in Hi.
  - unfold AlwaysRevert.on_failure, bind. by rewrite !enter_args_kwargs_run.
  - unfold AlwaysRevertAll.on_failure, bind. rewrite !enter_kwargs_run.
    by destruct (pos c).
  - unfold Times.on_failure, bind. rewrite !enter_history_run.
    destruct (bound_history c) as [history|] eqn:Hb; [|done].
    unfold py_len, bind, elements.
    rewrite iter_elems_with_copy by (by eapply bound_history_closed).
    destruct (iter_elems σ history); [|done].
    unfold ret, Times._attempts. cbv beta iota zeta. rewrite Hself, Hself'.
    by case_bool_decide.
  - unfold ForEach.on_failure, bind. rewrite !enter_history_run.
    destruct (bound_history c) as [history|] eqn:Hb; [|done].
    assert (closed σ history) as Hcl by (by eapply bound_history_closed).
    unfold ForEach._values. rewrite Hself, Hself'.
    rewrite !on_failure_run by (done || by apply closed_with_copy).
    cbn [fst]. by rewrite Hself, Hself', !iter_elems_with_copy.
  - unfold ParameterizedForEach.on_failure, bind.
    rewrite !enter_values_history_run.
    destruct (bound_values_history c) as [[values history]|] eqn:Hb; [|done].
    destruct (bound_values_history_closed σ c values history) as [Hv Hh];
      [done..|].
    cbn [fst snd].
    rewrite !on_failure_run by (done || by apply closed_with_copy).
    cbn [fst]. by rewrite Hself, Hself', !iter_elems_with_copy.
Qed.

(** C8.  For every strategy, [on_failure] called again with the same
    arguments, in the store the first call left, returns what the first
    call returned (the same action, or the same exception), and neither
    call changes the controller instance: the answer is a function of the
    arguments and of the attributes set at construction. *)
Theorem on_failure_is_deterministic (σ : store) (self : loc) (i : instance)
    (c : call) :
  σ !! self = Some (RetryObj i) →
  instance_closed σ i →
  call_closed σ c →
  let first := call_on_failure self c σ in
  let second := call_on_failure self c first.2 in
  second.1 = first.1 ∧
  first.2 !! self = Some (RetryObj i) ∧
  second.2 !! self = Some (RetryObj i).
Proof.
  intros Hself Hi Hc first second. subst second first.
  destruct (call_on_failure_store self c σ) as [ws1 ->].
  destruct (call_on_failure_store self c (with_copy σ ws1)) as [ws2 ->].
  assert (with_copy σ ws1 !! self = Some (RetryObj i)) as Hself1.
  { rewrite lookup_with_copy; [done | by eexists]. }
  split; [by eapply call_on_failure_stable|].
  split; [done|].
  rewrite lookup_with_copy; [done | by eexists].
Qed.

Lemma on_failure_is_deterministic_witness :
  let first := call_on_failure Sample.for_each Sample.kw_history Sample.σ in
  let second := call_on_failure Sample.for_each Sample.kw_history first.2 in
  first.1 = Ret RETRY ∧
  first.2 ≠ Sample.σ ∧
  second.1 = first.1 ∧
  first.2 !! Sample.for_each
    = Some (RetryObj (ForEachI "fe" (ORef Sample.candidates))) ∧
  second.2 !! Sample.for_each
    = Some (RetryObj (ForEachI "fe" (ORef Sample.candidates))).
Proof.
  split; [reflexivity|]. split; [by vm_compute|].
  apply (on_failure_is_deterministic Sample.σ Sample.for_each
           (ForEachI "fe" (ORef Sample.candidates)) Sample.kw_history).
  - reflexivity.
  - by eexists.
  - split; [constructor|]. apply map_Forall_singleton. by eexists.
Defined.


(** * Further properties of the module *)

(** ** The working copy as a list *)

Lemma py_eq_refl (x : pyval) : py_eq x x = true.
Proof. by apply py_eq_true. Qed.

Lemma remaining_app (vs r1 r2 : list pyval) :
  Reference.remaining vs (r1 ++ r2)
  = Reference.remaining (Reference.remaining vs r1) r2.
Proof. apply fold_left_app. Qed.

Lemma remaining_take (vs : list pyval) (k : nat) :
  Reference.remaining vs (take k vs) = drop k vs.
Proof.
  revert k. induction vs as [|v vs IH]; intros [|k]; try done.
  cbn [take drop]. unfold Reference.remaining; cbn [fold_left].
  cbn [Reference.remove_one]. rewrite py_eq_refl. apply IH.
Qed.

Lemma remove_one_comm (a b : pyval) (l : list pyval) :
  Reference.remove_one a (Reference.remove_one b l)
  = Reference.remove_one b (Reference.remove_one a l).
Proof.
  induction l as [|x l IH]; [done|]. cbn [Reference.remove_one].
  destruct (py_eq x b) eqn:Hb, (py_eq x a) eqn:Ha;
    cbn [Reference.remove_one]; rewrite ?Ha, ?Hb; try done.
  - apply py_eq_true in Ha, Hb. by subst.
  - by rewrite IH.
Qed.

Lemma remaining_perm (vs r1 r2 : list pyval) :
  r1 ≡ₚ r2 → Reference.remaining vs r1 = Reference.remaining vs r2.
Proof.
  intros Hperm. revert vs.
  induction Hperm as [|x r1 r2 _ IH|x y r|r1 r2 r3 _ IH1 _ IH2]; intros vs.
  - done.
  - apply IH.
  - unfold Reference.remaining; cbn [fold_left]. by rewrite remove_one_comm.
  - by rewrite IH1.
Qed.

Lemma remove_one_sublist (v : pyval) (l : list pyval) :
  Reference.remove_one v l `sublist_of` l.
Proof.
  induction l as [|x l IH]; [done|]. cbn [Reference.remove_one].
  destruct (py_eq x v); [by apply sublist_cons | by apply sublist_skip].
Qed.

Lemma consume_sublist (entries ws : list pyval) :
  (consume entries ws).2 `sublist_of` ws.
Proof.
  revert ws. induction entries as [|e es IH]; intros ws; simpl; [done|].
  destruct (iter_data e) as [[|a [|b [|? ?]]]|]; try done.
  rewrite <- remove_one_first. etrans; [apply IH | apply remove_one_sublist].
Qed.

Lemma occurrences_remove_one (v u : pyval) (l : list pyval) :
  occurrences v (Reference.remove_one u l)
  = (occurrences v l - (if py_eq u v then 1 else 0))%nat.
Proof.
  induction l as [|x l IH]; [done|]. cbn [Reference.remove_one].
  destruct (py_eq x u) eqn:Hxu.
  - apply py_eq_true in Hxu as ->. cbn [occurrences].
    destruct (py_eq u v); lia.
  - cbn [occurrences]. rewrite IH.
    destruct (py_eq u v) eqn:Huv; [|lia].
    destruct (py_eq x v) eqn:Hxv; [|lia].
    apply py_eq_true in Huv, Hxv. subst. rewrite py_eq_refl in Hxu. done.
Qed.

Lemma occurrences_remaining (v : pyval) (vs recorded : list pyval) :
  occurrences v (Reference.remaining vs recorded)
  = (occurrences v vs - occurrences v recorded)%nat.
Proof.
  revert vs. induction recorded as [|u recorded IH]; intros vs.
  - cbn. lia.
  - unfold Reference.remaining; cbn [fold_left].
    fold (Reference.remaining (Reference.remove_one u vs) recorded).
    rewrite IH, occurrences_remove_one. cbn [occurrences]. lia.
Qed.

Lemma nil_occurrences (l : list pyval) :
  l = [] ↔ ∀ v, occurrences v l = 0%nat.
Proof.
  split; [by intros -> |]. destruct l as [|x l]; [done|].
  intros H. specialize (H x). cbn in H. rewrite py_eq_refl in H. lia.
Qed.

Lemma length_remove_one (v : pyval) (l : list pyval) :
  (length l - 1 ≤ length (Reference.remove_one v l))%nat.
Proof.
  induction l as [|x l IH]; [done|]. cbn [Reference.remove_one].
  destruct (py_eq x v); cbn [length]; lia.
Qed.

Lemma length_remaining (vs recorded : list pyval) :
  (length vs - length recorded ≤ length (Reference.remaining vs recorded))%nat.
Proof.
  revert vs. induction recorded as [|u recorded IH]; intros vs.
  - cbn. lia.
  - unfold Reference.remaining; cbn [fold_left].
    fold (Reference.remaining (Reference.remove_one u vs) recorded).
    specialize (IH (Reference.remove_one u vs)).
    pose proof (length_remove_one u vs). cbn [length]. lia.
Qed.

(** ** The helper on a collection and a well-formed history *)

Lemma get_next_value_records (σ : store) (self : loc) (c : instance)
    (values history : pyobj) (vs : list pyval) (h : History) :
  σ !! self = Some (RetryObj c) →
  iter_elems σ values = Some vs →
  iter_elems σ history = Some (records h) →
  ForEachBase._get_next_value self values history σ =
  (match Reference.remaining vs (tried h) with
   | [] => Raise (NotFound (ForEachBase.not_found_msg (instance_name c)))
   | v :: _ => Ret v
   end,
   with_copy σ (Some (Reference.remaining vs (tried h)))).
Proof.
  intros Hself Hvs Hh.
  rewrite get_next_value_run; [|by eapply iter_elems_closed].
  rewrite Hself, Hvs, Hh, next_value_of_records. cbv zeta.
  by destruct (Reference.remaining vs (tried h)).
Qed.

Lemma on_failure_records (σ : store) (self : loc) (c : instance)
    (values history : pyobj) (vs : list pyval) (h : History) :
  σ !! self = Some (RetryObj c) →
  iter_elems σ values = Some vs →
  iter_elems σ history = Some (records h) →
  ForEachBase._on_failure self values history σ =
  (Ret (Reference.decision vs (tried h)),
   with_copy σ (Some (Reference.remaining vs (tried h)))).
Proof.
  intros Hself Hvs Hh.
  rewrite on_failure_run; [|by eapply iter_elems_closed].
  rewrite Hself, Hvs, Hh, next_value_of_records. cbv zeta.
  unfold Reference.decision.
  by destruct (Reference.remaining vs (tried h)).
Qed.

(** ** Enumeration of the collection *)

(** X1.  When the history records the first [k] candidates in their order
    (what it holds after [k] attempts, each made with the value [execute]
    returned and then recorded), the next value is the candidate of index
    [k], duplicates included, and the decision is [RETRY]; once [k]
    reaches the length of the collection the next value is a [NotFound]
    and the decision [REVERT]. *)
Theorem candidates_are_tried_in_order (σ : store) (self : loc) (c : instance)
    (values history : pyobj) (vs : list pyval) (h : History) (k : nat) :
  σ !! self = Some (RetryObj c) →
  iter_elems σ values = Some vs →
  iter_elems σ history = Some (records h) →
  tried h = take k vs →
  (ForEachBase._get_next_value self values history σ).1
    = match vs !! k with
      | Some v => Ret v
      | None => Raise (NotFound (ForEachBase.not_found_msg (instance_name c)))
      end ∧
  (ForEachBase._on_failure self values history σ).1
    = Ret (if bool_decide (k < length vs)%nat then RETRY else REVERT).
Proof.
  intros Hself Hvs Hh Htried.
  rewrite (get_next_value_records σ self c values history vs h) by done.
  rewrite (on_failure_records σ self c values history vs h) by done.
  unfold Reference.decision. rewrite Htried, remaining_take. cbn [fst].
  pose proof (lookup_drop vs k 0) as Hk. rewrite Nat.add_0_r in Hk.
  rewrite <- Hk.
  destruct (drop k vs) as [|v ws] eqn:Hdrop; cbn [lookup list_lookup].
  - split; [done|]. rewrite bool_decide_eq_false_2; [done|].
    assert (length (drop k vs) = 0%nat) as Hlen by (by rewrite Hdrop).
    rewrite length_drop in Hlen. lia.
  - split; [done|]. rewrite bool_decide_eq_true_2; [done|].
    assert (length (drop k vs) = S (length ws)) as Hlen by (by rewrite Hdrop).
    rewrite length_drop in Hlen. lia.
Qed.

Lemma candidates_are_tried_in_order_witness :
  tried Sample.one_failure = take 1 [Sample.a; Sample.a; Sample.b] ∧
  (ForEachBase._get_next_value Sample.for_each (ORef Sample.candidates)
     (ORef Sample.past) Sample.σ).1 = Ret Sample.a ∧
  (ForEachBase._on_failure Sample.for_each (ORef Sample.candidates)
     (ORef Sample.past) Sample.σ).1 = Ret RETRY.
Proof.
  split; [reflexivity|].
  apply (candidates_are_tried_in_order Sample.σ Sample.for_each
           (ForEachI "fe" (ORef Sample.candidates)) (ORef Sample.candidates)
           (ORef Sample.past) [Sample.a; Sample.a; Sample.b]
           Sample.one_failure 1); reflexivity.
Defined.

(** X2.  The order of the attempt records does not matter: two histories
    whose recorded values are the same up to order give the same next
    value, the same decision and the same working copy. *)
Theorem history_order_is_irrelevant (σ : store) (self : loc)
    (values history1 history2 : pyobj) (h1 h2 : History) :
  iter_elems σ history1 = Some (records h1) →
  iter_elems σ history2 = Some (records h2) →
  tried h1 ≡ₚ tried h2 →
  ForEachBase._get_next_value self values history1 σ
    = ForEachBase._get_next_value self values history2 σ ∧
  ForEachBase._on_failure self values history1 σ
    = ForEachBase._on_failure self values history2 σ.
Proof.
  intros Hh1 Hh2 Hperm.
  rewrite !on_failure_run, !get_next_value_run by (by eapply iter_elems_closed).
  rewrite Hh1, Hh2. unfold next_value_of.
  destruct (iter_elems σ values) as [vs|]; [|done].
  by rewrite !consume_records, (remaining_perm vs _ _ Hperm).
Qed.

Lemma history_order_is_irrelevant_witness :
  tried Sample2.ab ≠ tried Sample2.ba ∧
  ForEachBase._get_next_value Sample.for_each (ORef Sample.candidates)
    (ORef Sample2.a_then_b) Sample2.σ
  = ForEachBase._get_next_value Sample.for_each (ORef Sample.candidates)
      (ORef Sample2.b_then_a) Sample2.σ.
Proof.
  split; [discriminate|].
  apply (history_order_is_irrelevant Sample2.σ Sample.for_each
           (ORef Sample.candidates) (ORef Sample2.a_then_b)
           (ORef Sample2.b_then_a) Sample2.ab Sample2.ba);
    [reflexivity | reflexivity | apply Permutation_swap].
Defined.

(** X3.  A value [_get_next_value] returns is an element of the
    collection it was given, whatever the history holds: the working copy
    only ever loses elements. *)
Theorem next_value_is_a_candidate (σ : store) (self : loc)
    (values history : pyobj) (vs : list pyval) (v : pyval) :
  iter_elems σ values = Some vs →
  closed σ history →
  (ForEachBase._get_next_value self values history σ).1 = Ret v →
  v ∈ vs.
Proof.
  intros Hvs Hcl. rewrite get_next_value_run by done. rewrite Hvs.
  unfold next_value_of. cbv zeta.
  destruct (iter_elems σ history) as [es|]; [|done].
  pose proof (consume_sublist es vs) as Hsub.
  destruct (consume es vs) as [[[]|e] [|x ws]]; cbn [fst snd] in *; try done.
  - by destruct (σ !! self) as [[|?]|].
  - intros [= <-]. eapply elem_of_sublist; [|done]. by left.
Qed.

Lemma next_value_is_a_candidate_witness :
  iter_elems Sample.σ (ORef Sample.candidates)
    = Some [Sample.a; Sample.a; Sample.b] ∧
  Sample.a ∈ [Sample.a; Sample.a; Sample.b].
Proof.
  split; [reflexivity|].
  apply (next_value_is_a_candidate Sample.σ Sample.for_each
           (ORef Sample.candidates) (ORef Sample.past));
    [reflexivity | by eexists | reflexivity].
Defined.

(** X4.  The collection strategies give up exactly when every value has
    been recorded at least as often as the collection holds it, and retry
    exactly when some value has been recorded less often: the history
    consumes the collection as a multiset. *)
Theorem exhausted_iff_all_recorded (σ : store) (self : loc) (c : instance)
    (values history : pyobj) (vs : list pyval) (h : History) :
  σ !! self = Some (RetryObj c) →
  iter_elems σ values = Some vs →
  iter_elems σ history = Some (records h) →
  ((ForEachBase._on_failure self values history σ).1 = Ret REVERT ↔
     ∀ v, (occurrences v vs ≤ occurrences v (tried h))%nat) ∧
  ((ForEachBase._on_failure self values history σ).1 = Ret RETRY ↔
     ∃ v, (occurrences v (tried h) < occurrences v vs)%nat).
Proof.
  intros Hself Hvs Hh.
  rewrite (on_failure_records σ self c values history vs h) by done.
  cbn [fst]. unfold Reference.decision.
  destruct (Reference.remaining vs (tried h)) as [|x ws] eqn:Hrem.
  - pose proof (proj1 (nil_occurrences _) Hrem) as Hocc. split.
    + split; [|done]. intros _ v. specialize (Hocc v).
      rewrite occurrences_remaining in Hocc. lia.
    + split; [done|]. intros [v Hv]. specialize (Hocc v).
      rewrite occurrences_remaining in Hocc. lia.
  - assert (occurrences x (Reference.remaining vs (tried h)) ≠ 0%nat) as Hx.
    { rewrite Hrem. cbn [occurrences]. rewrite py_eq_refl. lia. }
    rewrite occurrences_remaining in Hx. split.
    + split; [done|]. intros Hall. specialize (Hall x). lia.
    + split; [|done]. intros _. exists x. lia.
Qed.

Lemma exhausted_iff_all_recorded_witness :
  ((ForEachBase._on_failure Sample.for_each (ORef Sample.candidates)
      (ORef Sample2.all_tried) Sample2.σ).1 = Ret REVERT ↔
     ∀ v, (occurrences v [Sample.a; Sample.a; Sample.b]
           ≤ occurrences v (tried Sample2.aab))%nat) ∧
  ((ForEachBase._on_failure Sample.for_each (ORef Sample.candidates)
      (ORef Sample2.all_tried) Sample2.σ).1 = Ret RETRY ↔
     ∃ v, (occurrences v (tried Sample2.aab)
           < occurrences v [Sample.a; Sample.a; Sample.b])%nat).
Proof.
  apply (exhausted_iff_all_recorded Sample2.σ Sample.for_each
           (ForEachI "fe" (ORef Sample.candidates))); reflexivity.
Defined.

(** ** When a collection strategy gives up *)

(** X5.  While the history holds fewer attempt records than the
    collection holds candidates, the decision is [RETRY] and a next value
    exists, whatever was recorded: a collection of [n] candidates is given
    at least [n] attempts. *)
Theorem retries_while_history_is_shorter (σ : store) (self : loc) (c : instance)
    (values history : pyobj) (vs : list pyval) (h : History) :
  σ !! self = Some (RetryObj c) →
  iter_elems σ values = Some vs →
  iter_elems σ history = Some (records h) →
  (length h < length vs)%nat →
  (ForEachBase._on_failure self values history σ).1 = Ret RETRY ∧
  ∃ v, (ForEachBase._get_next_value self values history σ).1 = Ret v.
Proof.
  intros Hself Hvs Hh Hlen.
  rewrite (get_next_value_records σ self c values history vs h) by done.
  rewrite (on_failure_records σ self c values history vs h) by done.
  cbn [fst]. unfold Reference.decision.
  pose proof (length_remaining vs (tried h)) as Hrem.
  assert (length (tried h) = length h) as Htried
    by (unfold tried; by rewrite length_fmap).
  rewrite Htried in Hrem.
  destruct (Reference.remaining vs (tried h)) as [|x ws];
    [cbn [length] in Hrem; lia|].
  split; [done | by exists x].
Qed.

Lemma retries_while_history_is_shorter_witness :
  (length Sample.one_failure < length [Sample.a; Sample.a; Sample.b])%nat ∧
  (ForEachBase._on_failure Sample.for_each (ORef Sample.candidates)
     (ORef Sample.past) Sample.σ).1 = Ret RETRY.
Proof.
  split; [simpl; lia|].
  apply (retries_while_history_is_shorter Sample.σ Sample.for_each
           (ForEachI "fe" (ORef Sample.candidates)) (ORef Sample.candidates)
           (ORef Sample.past) [Sample.a; Sample.a; Sample.b]
           Sample.one_failure); [reflexivity.. | simpl; lia].
Defined.

(** X6.  Giving up is final: once the decision on a history is [REVERT],
    it is [REVERT] on every history that extends it, and the next value
    stays a [NotFound]. *)
Theorem exhaustion_is_final (σ : store) (self : loc) (c : instance)
    (values history1 history2 : pyobj) (vs : list pyval) (h more : History) :
  σ !! self = Some (RetryObj c) →
  iter_elems σ values = Some vs →
  iter_elems σ history1 = Some (records h) →
  iter_elems σ history2 = Some (records (h ++ more)) →
  (ForEachBase._on_failure self values history1 σ).1 = Ret REVERT →
  (ForEachBase._on_failure self values history2 σ).1 = Ret REVERT ∧
  (ForEachBase._get_next_value self values history2 σ).1
    = Raise (NotFound (ForEachBase.not_found_msg (instance_name c))).
Proof.
  intros Hself Hvs Hh1 Hh2.
  rewrite (on_failure_records σ self c values history1 vs h) by done.
  rewrite (on_failure_records σ self c values history2 vs (h ++ more)) by done.
  rewrite (get_next_value_records σ self c values history2 vs (h ++ more))
    by done.
  cbn [fst]. unfold Reference.decision, tried.
  rewrite fmap_app. fold (tried h) (tried more). rewrite remaining_app.
  destruct (Reference.remaining vs (tried h)); [|done].
  by rewrite remaining_nil.
Qed.

Lemma exhaustion_is_final_witness :
  (ForEachBase._on_failure Sample.for_each (ORef Sample.candidates)
     (ORef Sample2.all_tried) Sample2.σ).1 = Ret REVERT ∧
  (ForEachBase._on_failure Sample.for_each (ORef Sample.candidates)
     (ORef Sample2.longer) Sample2.σ).1 = Ret REVERT.
Proof.
  split; [reflexivity|].
  apply (exhaustion_is_final Sample2.σ Sample.for_each
           (ForEachI "fe" (ORef Sample.candidates)) (ORef Sample.candidates)
           (ORef Sample2.all_tried) (ORef Sample2.longer)
           [Sample.a; Sample.a; Sample.b] Sample2.aab Sample.one_failure);
    reflexivity.
Defined.

(** ** Errors of the iteration helper *)

Lemma consume_app_records (h : History) (es ws : list pyval) :
  consume (records h ++ es) ws = consume es (Reference.remaining ws (tried h)).
Proof.
  revert ws. induction h as [|[v f] h IH]; intros ws; [done|].
  cbn. rewrite IH. by rewrite remove_one_first.
Qed.

(** X7.  An entry of the history that does not unpack into two (an
    integer, a tuple of another length) ends [_get_next_value] with the
    exception of the unpacking, and [_on_failure], which catches
    [NotFound] alone, lets it through.  The removals of the records before
    that entry were made, on the working copy. *)
Theorem malformed_entry_escapes (σ : store) (self : loc)
    (values history : pyobj) (vs : list pyval) (h : History)
    (bad : pyval) (rest : list pyval) (e : exn) :
  iter_elems σ values = Some vs →
  iter_elems σ history = Some (records h ++ bad :: rest) →
  unpack2 bad σ = (Raise e, σ) →
  (e = TypeError ∨ e = ValueError) ∧
  ForEachBase._get_next_value self values history σ
    = (Raise e, with_copy σ (Some (Reference.remaining vs (tried h)))) ∧
  ForEachBase._on_failure self values history σ
    = (Raise e, with_copy σ (Some (Reference.remaining vs (tried h)))).
Proof.
  intros Hvs Hh Hbad.
  rewrite on_failure_run, get_next_value_run by (by eapply iter_elems_closed).
  rewrite Hvs, Hh. unfold next_value_of. rewrite consume_app_records.
  cbn [consume]. unfold unpack2 in Hbad.
  destruct (iter_data bad) as [[|a [|b [|? ?]]]|];
    try discriminate Hbad; injection Hbad as <-; cbn; eauto.
Qed.

Lemma malformed_entry_escapes_witness :
  iter_elems Sample2.σ (ORef Sample2.broken)
    = Some (records Sample.one_failure ++ PInt 7 :: [record (Sample.b, ∅)]) ∧
  (ForEachBase._on_failure Sample.for_each (ORef Sample.candidates)
     (ORef Sample2.broken) Sample2.σ).1 = Raise TypeError.
Proof.
  split; [reflexivity|].
  destruct (malformed_entry_escapes Sample2.σ Sample.for_each
              (ORef Sample.candidates) (ORef Sample2.broken)
              [Sample.a; Sample.a; Sample.b] Sample.one_failure (PInt 7)
              [record (Sample.b, ∅)] TypeError) as (_ & _ & ->);
    reflexivity.
Defined.

(** X8.  A collection that cannot be iterated ([None], an integer) makes
    [on_failure] and [execute] of both collection strategies raise
    [TypeError] before the history is looked at; nothing is written. *)
Theorem collection_must_be_iterable (σ : store) (fe pfe : loc)
    (name : string) (stored given history : pyobj) (c_fe c_pfe : call) :
  σ !! fe = Some (RetryObj (ForEachI name stored)) →
  iter_elems σ stored = None →
  iter_elems σ given = None →
  bound_history c_fe = Some history →
  bound_values_history c_pfe = Some (given, history) →
  ForEach.on_failure fe c_fe σ = (Raise TypeError, σ) ∧
  ForEach.execute fe c_fe σ = (Raise TypeError, σ) ∧
  ParameterizedForEach.on_failure pfe c_pfe σ = (Raise TypeError, σ) ∧
  ParameterizedForEach.execute pfe c_pfe σ = (Raise TypeError, σ).
Proof.
  intros Hfe Hstored Hgiven Hc_fe Hc_pfe.
  unfold ForEach.on_failure, ForEach.execute, ParameterizedForEach.on_failure,
    ParameterizedForEach.execute, bind.
  rewrite enter_history_run, Hc_fe, enter_values_history_run, Hc_pfe.
  unfold ForEach._values. rewrite Hfe. cbn [fst snd].
  unfold ForEachBase._on_failure, try_except_else,
    ForEachBase._get_next_value, py_list.
  unfold bind, elements. by rewrite Hstored, Hgiven.
Qed.

Lemma collection_must_be_iterable_witness :
  ForEach.on_failure Sample2.for_each_none Sample.kw_history Sample2.σ
    = (Raise TypeError, Sample2.σ) ∧
  ForEach.execute Sample2.for_each_none Sample.kw_history Sample2.σ
    = (Raise TypeError, Sample2.σ) ∧
  ParameterizedForEach.on_failure Sample.parameterized
    (by_position [OData (PInt 3); ORef Sample.past]) Sample2.σ
    = (Raise TypeError, Sample2.σ) ∧
  ParameterizedForEach.execute Sample.parameterized
    (by_position [OData (PInt 3); ORef Sample.past]) Sample2.σ
    = (Raise TypeError, Sample2.σ).
Proof.
  apply (collection_must_be_iterable Sample2.σ Sample2.for_each_none
           Sample.parameterized "bad" (OData PNone) (OData (PInt 3))
           (ORef Sample.past)); reflexivity.
Defined.

(** ** Decision and production together *)

(** X9.  On the same call in the same store, [on_failure] of a collection
    strategy answers [RETRY] exactly when [execute] returns a value and
    [REVERT] exactly when [execute] raises [NotFound]; any other exception
    of [execute] is the exception of [on_failure]; both leave the same
    store. *)
Theorem on_failure_follows_execute (self : loc) (c : call) (σ : store) :
  ForEach.on_failure self c σ
    = (decide_on (ForEach.execute self c σ).1, (ForEach.execute self c σ).2) ∧
  ParameterizedForEach.on_failure self c σ
    = (decide_on (ParameterizedForEach.execute self c σ).1,
       (ParameterizedForEach.execute self c σ).2).
Proof.
  unfold ForEach.on_failure, ForEach.execute, ParameterizedForEach.on_failure,
    ParameterizedForEach.execute, bind.
  rewrite enter_history_run, enter_values_history_run.
  unfold ForEach._values, ForEachBase._on_failure, try_except_else, ret.
  split.
  - destruct (bound_history c) as [history|]; [|done].
    destruct (σ !! self) as [[|[]]|]; try done.
    by destruct (ForEachBase._get_next_value _ _ _ _) as [[v|[]] σ'].
  - destruct (bound_values_history c) as [[values history]|]; [|done].
    by destruct (ForEachBase._get_next_value _ _ _ _) as [[v|[]] σ'].
Qed.

(** ** Renaming a controller *)

Lemma instance_name_set_name (n : string) (i : instance) :
  instance_name (instance_set_name n i) = n.
Proof. by destruct i. Qed.

Lemma iter_elems_renamed (σ : store) (self : loc) (i i' : instance) (x : pyobj) :
  σ !! self = Some (RetryObj i) →
  iter_elems (<[self := RetryObj i']> σ) x = iter_elems σ x.
Proof.
  intros Hself. destruct x as [v|l]; [done|]. cbn [iter_elems].
  destruct (decide (self = l)) as [<-|Hne].
  - by rewrite lookup_insert_eq, Hself.
  - by rewrite lookup_insert_ne.
Qed.

Lemma closed_renamed (σ : store) (self : loc) (i' : instance) (x : pyobj) :
  closed σ x → closed (<[self := RetryObj i']> σ) x.
Proof.
  destruct x as [v|l]; [done|]. cbn [closed]. intros Hl.
  destruct (decide (self = l)) as [<-|Hne].
  - rewrite lookup_insert_eq. by eexists.
  - by rewrite lookup_insert_ne.
Qed.

Lemma next_value_of_renamed (i i' : instance) (vs es : option (list pyval)) :
  (next_value_of (Some (RetryObj i')) vs es).1
  = renamed (instance_name i') (next_value_of (Some (RetryObj i)) vs es).1.
Proof.
  unfold next_value_of. destruct vs as [vs|]; [|done].
  destruct es as [es|]; [|done].
  pose proof (consume_raises es vs) as Hraise.
  destruct (consume es vs) as [[[]|e] [|v ws]]; try done;
    destruct (Hraise e eq_refl) as [-> | ->]; done.
Qed.

Lemma decide_on_renamed (n : string) (r : outcome pyval) :
  decide_on (renamed n r) = decide_on r.
Proof. by destruct r as [v|[]]. Qed.

(** X10.  [set_name] changes the name and nothing else: the name read
    afterwards is the new one, every other object is as it was, the
    decision of [on_failure] is the one before the renaming, and
    [execute] gives what it gave, the message of an exhausted collection
    now carrying the new name. *)
Theorem set_name_changes_the_name_only (σ : store) (self : loc) (i : instance)
    (n : string) (c : call) :
  σ !! self = Some (RetryObj i) →
  call_closed σ c →
  let σ' := (Retry.set_name self n σ).2 in
  (Retry.name self σ').1 = Ret n ∧
  (∀ l, l ≠ self → σ' !! l = σ !! l) ∧
  (call_on_failure self c σ').1 = (call_on_failure self c σ).1 ∧
  (call_execute self c σ').1 = renamed n (call_execute self c σ).1.
Proof.
  intros Hself Hc σ'. subst σ'.
  unfold Retry.set_name. rewrite Hself. cbn [snd].
  set (i' := instance_set_name n i).
  set (σ' := <[self := RetryObj i']> σ).
  assert (σ' !! self = Some (RetryObj i')) as Hself'
    by apply lookup_insert_eq.
  assert (∀ x, iter_elems σ' x = iter_elems σ x) as Hiter
    by (intros x; by eapply iter_elems_renamed).
  split; [|split].
  { unfold Retry.name. rewrite Hself'. cbn. f_equal.
    apply instance_name_set_name. }
  { intros l Hl. by apply lookup_insert_ne. }
  unfold call_on_failure, call_execute. rewrite Hself, Hself'.
  destruct i as [name|name|name a|name values|name];
    subst i'; cbn [instance_set_name] in *.
  - unfold AlwaysRevert.on_failure, AlwaysRevert.execute, bind.
    by rewrite !enter_args_kwargs_run.
  - unfold AlwaysRevertAll.on_failure, AlwaysRevertAll.execute, bind.
    rewrite !enter_kwargs_run. by destruct (pos c).
  - unfold Times.on_failure, Times.execute, bind.
    rewrite !enter_history_run.
    destruct (bound_history c) as [history|]; [|done].
    unfold py_len, bind, elements. rewrite Hiter.
    destruct (iter_elems σ history); [|done].
    unfold ret, Times._attempts. cbv beta iota zeta.
    rewrite Hself, Hself'. by case_bool_decide.
  - unfold ForEach.on_failure, ForEach.execute, bind.
    rewrite !enter_history_run.
    destruct (bound_history c) as [history|] eqn:Hb; [|done].
    assert (closed σ history) as Hcl by (by eapply bound_history_closed).
    unfold ForEach._values. rewrite Hself, Hself'.
    rewrite !on_failure_run, !get_next_value_run
      by (done || by apply closed_renamed).
    cbn [fst]. rewrite Hself, Hself', !Hiter.
    rewrite (next_value_of_renamed (ForEachI name values) (ForEachI n values)).
    by rewrite decide_on_renamed.
  - unfold ParameterizedForEach.on_failure, ParameterizedForEach.execute, bind.
    rewrite !enter_values_history_run.
    destruct (bound_values_history c) as [[values history]|] eqn:Hb; [|done].
    destruct (bound_values_history_closed σ c values history) as [Hv Hh];
      [done..|].
    cbn [fst snd].
    rewrite !on_failure_run, !get_next_value_run
      by (done || by apply closed_renamed).
    cbn [fst]. rewrite Hself, Hself', !Hiter.
    rewrite (next_value_of_renamed (ParameterizedForEachI name)
               (ParameterizedForEachI n)).
    by rewrite decide_on_renamed.
Qed.

Lemma set_name_changes_the_name_only_witness :
  let σ' := (Retry.set_name Sample.for_each_nothing "drained" Sample.σ).2 in
  (Retry.name Sample.for_each_nothing σ').1 = Ret "drained"%string ∧
  (call_execute Sample.for_each_nothing Sample.kw_history σ').1
    = Raise (NotFound (ForEachBase.not_found_msg "drained")).
Proof.
  destruct (set_name_changes_the_name_only Sample.σ Sample.for_each_nothing
              (ForEachI "none" (ORef Sample.nothing)) "drained"
              Sample.kw_history) as (Hname & _ & _ & Hexec).
  - reflexivity.
  - split; [constructor|]. apply map_Forall_singleton. by eexists.
  - split; [exact Hname|]. rewrite Hexec. reflexivity.
Defined.

(** ** Times *)

(** X11.  [Times] never looks into the entries of the history (they need
    not even be attempt records): [execute] returns the number [k >= 1] of
    the attempt to come, and [on_failure] answers [RETRY] exactly when
    that number is at most [attempts].  A subflow under [Times(n)] is
    attempted at most [n] times. *)
Theorem times_retries_up_to_attempts (σ : store) (self : loc) (name : string)
    (n : Z) (c : call) (history : pyobj) (es : list pyval) :
  σ !! self = Some (RetryObj (TimesI name n)) →
  bound_history c = Some history →
  iter_elems σ history = Some es →
  ∃ k, 1 ≤ k ∧
       k = Z.of_nat (length es) + 1 ∧
       (Times.execute self c σ).1 = Ret (PInt k) ∧
       ((Times.on_failure self c σ).1 = Ret RETRY ↔ k ≤ n) ∧
       ((Times.on_failure self c σ).1 = Ret REVERT ↔ n < k).
Proof.
  intros Hself Hc Hes.
  destruct (times_run σ self name n c history es Hself Hc Hes) as [-> ->].
  exists (Z.of_nat (length es) + 1). cbn [fst].
  split; [lia|]. split; [done|]. split; [done|].
  case_bool_decide; split; split; intros; done || lia.
Qed.

Lemma times_retries_up_to_attempts_witness :
  iter_elems Sample.σ (ORef Sample.numbers) = Some [PInt 1; PInt 2] ∧
  ∃ k, 1 ≤ k ∧
       k = Z.of_nat (length [PInt 1; PInt 2]) + 1 ∧
       (Times.execute Sample.times (by_position [ORef Sample.numbers]) Sample.σ).1
         = Ret (PInt k) ∧
       ((Times.on_failure Sample.times (by_position [ORef Sample.numbers])
           Sample.σ).1 = Ret RETRY ↔ k ≤ 2) ∧
       ((Times.on_failure Sample.times (by_position [ORef Sample.numbers])
           Sample.σ).1 = Ret REVERT ↔ 2 < k).
Proof.
  split; [reflexivity|].
  apply (times_retries_up_to_attempts Sample.σ Sample.times "times" 2
           (by_position [ORef Sample.numbers]) (ORef Sample.numbers));
    reflexivity.
Defined.

(** X12.  [Times] built with a bound of zero or less never retries: its
    decision is [REVERT] on every history, the empty one included. *)
Theorem times_without_attempts_never_retries (σ : store) (self : loc)
    (name : string) (n : Z) (c : call) (history : pyobj) (es : list pyval) :
  n ≤ 0 →
  σ !! self = Some (RetryObj (TimesI name n)) →
  bound_history c = Some history →
  iter_elems σ history = Some es →
  Times.on_failure self c σ = (Ret REVERT, σ).
Proof.
  intros Hn Hself Hc Hes.
  destruct (times_run σ self name n c history es Hself Hc Hes) as [-> _].
  rewrite bool_decide_eq_false_2; [done | lia].
Qed.

Lemma times_without_attempts_never_retries_witness :
  Times.on_failure 1%positive (by_position [OData (PTuple [])])
    {[ 1%positive := RetryObj (TimesI "never" 0) ]}
  = (Ret REVERT, {[ 1%positive := RetryObj (TimesI "never" 0) ]}).
Proof.
  apply (times_without_attempts_never_retries
           {[ 1%positive := RetryObj (TimesI "never" 0) ]} 1%positive
           "never" 0 (by_position [OData (PTuple [])]) (OData (PTuple [])) []);
    [lia | reflexivity..].
Defined.

(** ** Calls a method refuses *)

(** X13.  The methods declared with a [history] parameter ([on_failure]
    and [execute] of [Times] and [ForEach], and the inherited [revert])
    raise [TypeError] and write nothing when the call gives no history,
    or gives it both by position and by keyword. *)
Theorem history_argument_is_required (σ : store) (self : loc) (c : call) :
  (pos c = [] ∧ kw c !! "history"%string = None) ∨
  (pos c ≠ [] ∧ is_Some (kw c !! "history"%string)) →
  Times.on_failure self c σ = (Raise TypeError, σ) ∧
  Times.execute self c σ = (Raise TypeError, σ) ∧
  ForEach.on_failure self c σ = (Raise TypeError, σ) ∧
  ForEach.execute self c σ = (Raise TypeError, σ) ∧
  Retry.revert self c σ = (Raise TypeError, σ).
Proof.
  intros Hc.
  assert (bound_history c = None) as Hb.
  { unfold bound_history.
    destruct Hc as [[-> ->] | [Hpos [x ->]]]; [done|].
    by destruct (pos c). }
  unfold Times.on_failure, Times.execute, ForEach.on_failure, ForEach.execute,
    Retry.revert, bind.
  by rewrite enter_history_run, Hb.
Qed.

Lemma history_argument_is_required_witness :
  Times.on_failure Sample.times (by_keyword ∅) Sample.σ
    = (Raise TypeError, Sample.σ) ∧
  Times.execute Sample.times (by_keyword ∅) Sample.σ
    = (Raise TypeError, Sample.σ) ∧
  ForEach.on_failure Sample.times (by_keyword ∅) Sample.σ
    = (Raise TypeError, Sample.σ) ∧
  ForEach.execute Sample.times (by_keyword ∅) Sample.σ
    = (Raise TypeError, Sample.σ) ∧
  Retry.revert Sample.times (by_keyword ∅) Sample.σ
    = (Raise TypeError, Sample.σ).
Proof.
  apply (history_argument_is_required Sample.σ Sample.times (by_keyword ∅)).
  left. split; reflexivity.
Defined.

(** X14.  A call that suits [ForEach], with the history alone (by keyword,
    or as the single positional argument) and no [values], is refused by
    [ParameterizedForEach]: its methods raise [TypeError] and write
    nothing. *)
Theorem parameterized_needs_values (σ : store) (self : loc) (c : call)
    (history : pyobj) :
  bound_history c = Some history →
  (length (pos c) ≤ 1)%nat →
  kw c !! "values"%string = None →
  ParameterizedForEach.on_failure self c σ = (Raise TypeError, σ) ∧
  ParameterizedForEach.execute self c σ = (Raise TypeError, σ).
Proof.
  intros Hb Hlen Hvalues.
  assert (bound_values_history c = None) as Hvh.
  { unfold bound_values_history, bound_history in *. rewrite Hvalues.
    destruct (pos c) as [|p [|q ps]]; [done| |cbn in Hlen; lia].
    by destruct (kw c !! "history"%string). }
  unfold ParameterizedForEach.on_failure, ParameterizedForEach.execute, bind.
  by rewrite enter_values_history_run, Hvh.
Qed.

Lemma parameterized_needs_values_witness :
  bound_history Sample.kw_history = Some (ORef Sample.past) ∧
  ParameterizedForEach.on_failure Sample.parameterized Sample.kw_history Sample.σ
    = (Raise TypeError, Sample.σ) ∧
  ParameterizedForEach.execute Sample.parameterized Sample.kw_history Sample.σ
    = (Raise TypeError, Sample.σ).
Proof.
  split; [reflexivity|].
  apply (parameterized_needs_values Sample.σ Sample.parameterized
           Sample.kw_history (ORef Sample.past));
    [reflexivity | simpl; lia | reflexivity].
Defined.

(** X15.  [AlwaysRevertAll] refuses every call that carries a positional
    argument: [on_failure] and [execute], declared with keyword parameters
    only, raise [TypeError] and write nothing. *)
Theorem always_revert_all_refuses_positional (σ : store) (self : loc) (c : call) :
  pos c ≠ [] →
  AlwaysRevertAll.on_failure self c σ = (Raise TypeError, σ) ∧
  AlwaysRevertAll.execute self c σ = (Raise TypeError, σ).
Proof.
  intros Hpos.
  unfold AlwaysRevertAll.on_failure, AlwaysRevertAll.execute, bind.
  rewrite enter_kwargs_run. by destruct (pos c).
Qed.

Lemma always_revert_all_refuses_positional_witness :
  AlwaysRevertAll.on_failure Sample.always_revert_all
    (by_position [ORef Sample.past]) Sample.σ = (Raise TypeError, Sample.σ) ∧
  AlwaysRevertAll.execute Sample.always_revert_all
    (by_position [ORef Sample.past]) Sample.σ = (Raise TypeError, Sample.σ).
Proof.
  apply (always_revert_all_refuses_positional Sample.σ
           Sample.always_revert_all (by_position [ORef Sample.past])).
  discriminate.
Defined.

(** ** Records of values that are no candidates *)

Lemma remove_one_absent (v : pyval) (l : list pyval) :
  v ∉ l → Reference.remove_one v l = l.
Proof.
  induction l as [|x l IH]; [done|]. rewrite not_elem_of_cons.
  intros [Hne Hnotin]. cbn [Reference.remove_one].
  destruct (py_eq x v) eqn:Heq.
  - apply py_eq_true in Heq. congruence.
  - by rewrite IH.
Qed.

Lemma remaining_sublist (vs recorded : list pyval) :
  Reference.remaining vs recorded `sublist_of` vs.
Proof.
  revert vs. induction recorded as [|u recorded IH]; intros vs; [done|].
  unfold Reference.remaining; cbn [fold_left].
  etrans; [apply IH | apply remove_one_sublist].
Qed.

Lemma remaining_skip (vs r1 r2 : list pyval) (z : pyval) :
  z ∉ vs →
  Reference.remaining vs (r1 ++ z :: r2) = Reference.remaining vs (r1 ++ r2).
Proof.
  intros Hz. rewrite !remaining_app.
  change (Reference.remaining (Reference.remaining vs r1) (z :: r2))
    with (Reference.remaining
            (Reference.remove_one z (Reference.remaining vs r1)) r2).
  rewrite remove_one_absent; [done|].
  intros Hin. apply Hz. eapply elem_of_sublist; [done|].
  apply remaining_sublist.
Qed.

(** X16.  An attempt record whose value is not in the collection is passed
    over: the history with it and the history without it give the same
    next value, the same decision and the same working copy. *)
Theorem foreign_record_is_skipped (σ : store) (self : loc)
    (values history1 history2 : pyobj) (vs : list pyval) (h1 h2 : History)
    (z : pyval) (f : gmap string string) :
  iter_elems σ values = Some vs →
  iter_elems σ history1 = Some (records (h1 ++ (z, f) :: h2)) →
  iter_elems σ history2 = Some (records (h1 ++ h2)) →
  z ∉ vs →
  ForEachBase._get_next_value self values history1 σ
    = ForEachBase._get_next_value self values history2 σ ∧
  ForEachBase._on_failure self values history1 σ
    = ForEachBase._on_failure self values history2 σ.
Proof.
  intros Hvs Hh1 Hh2 Hz.
  rewrite !on_failure_run, !get_next_value_run by (by eapply iter_elems_closed).
  rewrite Hvs, Hh1, Hh2. unfold next_value_of.
  rewrite !consume_records. unfold tried. rewrite !fmap_app, fmap_cons.
  by rewrite remaining_skip.
Qed.

Lemma foreign_record_is_skipped_witness :
  (Sample.a ∉ [PInt 1; PInt 2]) ∧
  ForEachBase._get_next_value Sample.for_each (ORef Sample.numbers)
    (ORef Sample.past) Sample.σ
  = ForEachBase._get_next_value Sample.for_each (ORef Sample.numbers)
      (ORef Sample.nothing) Sample.σ.
Proof.
  assert (Sample.a ∉ [PInt 1; PInt 2]) as Hnotin.
  { rewrite !not_elem_of_cons. repeat split; try discriminate.
    apply not_elem_of_nil. }
  split; [exact Hnotin|].
  apply (foreign_record_is_skipped Sample.σ Sample.for_each
           (ORef Sample.numbers) (ORef Sample.past) (ORef Sample.nothing)
           [PInt 1; PInt 2] [] [] Sample.a {["task" := "boom"]});
    [reflexivity | reflexivity | reflexivity | exact Hnotin].
Defined.
